(** * Fillout filtered-responses proxy: a shallow embedding of [src/app.ts]

    The development follows the source top-down:
    - [JsNum]      JavaScript numbers as IEEE-754 binary64 values, with the
                   relational and strict-equality operators the filter uses;
    - [JsText]     the string coercions [Number(s)], [parseInt(s)] (both
                   give binary64 numbers) and the date-only part of
                   [Date.parse];
    - the data model ([QuestionType], [SubmissionType], [FilterClauseType],
      [ReturnType]);
    - [paginateData] and [Array.prototype.slice] over the integers, and
      [paginateNumbers], the same call with the numbers that the handler
      parses from the query (rounded, possibly infinite);
    - the clause callback, [every]/[filter] and the route handler, written
      in a small state-and-exception monad over the Express response. *)

From Stdlib Require Import ZArith List String Ascii Bool Lia Permutation.
From Stdlib Require Import Floats.SpecFloat DecimalString.
Import ListNotations.

Local Open Scope string_scope.
Local Open Scope Z_scope.

(* ================================================================== *)
(** ** JavaScript numbers *)
(* ================================================================== *)

Module JsNum.

(** A JavaScript [number] is a binary64 value. *)
Definition number : Type := spec_float.

Definition prec : Z := 53.
Definition emax : Z := 1024.

Definition NaN : number := S754_nan.
Definition Infinity (neg : bool) : number := S754_infinity neg.

Definition isNaN (x : number) : bool :=
  match x with S754_nan => true | _ => false end.

(** The Number value of a mathematical integer (round to nearest, ties to
    even; exact below 2^53). *)
Definition ofZ (z : Z) : number := binary_normalize prec emax z 0 false.

(** The Number value of the rational [p / q], for [0 <= p] and [0 < q],
    with the sign given apart so that [-0] can be produced. *)
Definition ofRatio (neg : bool) (p q : Z) : number :=
  match p with
  | Z0 => S754_zero neg
  | _ =>
      let '(mz, ez, lz) := SFdiv_core_binary prec emax p 0 q 0 in
      binary_round_aux prec emax neg mz ez lz
  end.

(** [a < b] and [a > b] on numbers: false as soon as one side is NaN. *)
Definition lt (a b : number) : bool := SFltb a b.
Definition gt (a b : number) : bool := SFltb b a.

(** [a === b] on numbers: NaN differs from itself, [+0 === -0]. *)
Definition strictEq (a b : number) : bool := SFeqb a b.

(** Truncation toward zero of a finite value, as a mathematical integer. *)
Definition truncZ (neg : bool) (m : positive) (e : Z) : Z :=
  let a := match e with
           | Zneg k => Z.shiftr (Zpos m) (Zpos k)
           | _ => Z.shiftl (Zpos m) e
           end in
  if neg then - a else a.

(** [TimeClip]: a time value is an integral number of milliseconds within
    8.64e15 of the epoch, and NaN otherwise. *)
Definition TimeClip (t : number) : number :=
  match t with
  | S754_nan | S754_infinity _ => NaN
  | S754_zero _ => S754_zero false
  | S754_finite s m e =>
      let z := truncZ s m e in
      if Z.abs z >? 8640000000000000 then NaN
      else binary_normalize prec emax z 0 false
  end.

End JsNum.
Export JsNum.

(* ================================================================== *)
(** ** String coercions of the language runtime *)
(* ================================================================== *)

Module JsText.

(** Strings are kept as UTF-8 byte sequences. *)
Definition code (c : ascii) : Z := Z.of_N (N_of_ascii c).

Definition digitVal (radix : Z) (c : ascii) : option Z :=
  let n := code c in
  let v := if (48 <=? n) && (n <=? 57) then Some (n - 48)
           else if (97 <=? n) && (n <=? 122) then Some (n - 87)
           else if (65 <=? n) && (n <=? 90) then Some (n - 55)
           else None in
  match v with
  | Some d => if d <? radix then Some d else None
  | None => None
  end.

(** Longest prefix of digits of the radix: value so far, digits read,
    rest of the string. *)
Fixpoint takeDigits (radix : Z) (s : string) (acc : Z) (n : nat)
  : Z * nat * string :=
  match s with
  | String c r =>
      match digitVal radix c with
      | Some d => takeDigits radix r (acc * radix + d) (S n)
      | None => (acc, n, s)
      end
  | EmptyString => (acc, n, s)
  end.

(** [StrWhiteSpaceChar]: TAB, LF, VT, FF, CR, SP and, in UTF-8, U+00A0,
    U+1680, U+2000..U+200A, U+2028, U+2029, U+202F, U+205F, U+3000,
    U+FEFF. *)
Definition isWhite1 (c : ascii) : bool :=
  let n := code c in ((9 <=? n) && (n <=? 13)) || (n =? 32).

Definition isWhite2 (c1 c2 : ascii) : bool :=
  (code c1 =? 194) && (code c2 =? 160).

Definition isWhite3 (c1 c2 c3 : ascii) : bool :=
  let a := code c1 in let b := code c2 in let c := code c3 in
  ((a =? 225) && (b =? 154) && (c =? 128))
  || ((a =? 226) && (b =? 128)
      && (((128 <=? c) && (c <=? 138)) || (c =? 168) || (c =? 169)
          || (c =? 175)))
  || ((a =? 226) && (b =? 129) && (c =? 159))
  || ((a =? 227) && (b =? 128) && (c =? 128))
  || ((a =? 239) && (b =? 187) && (c =? 191)).

Fixpoint skipWhite (s : string) : string :=
  match s with
  | EmptyString => s
  | String c1 r1 =>
      if isWhite1 c1 then skipWhite r1
      else match r1 with
           | EmptyString => s
           | String c2 r2 =>
               if isWhite2 c1 c2 then skipWhite r2
               else match r2 with
                    | EmptyString => s
                    | String c3 r3 =>
                        if isWhite3 c1 c2 c3 then skipWhite r3 else s
                    end
           end
  end.

Definition dropChars (n : nat) (s : string) : string :=
  substring n (String.length s - n)%nat s.

(** The literal is accepted only when nothing but white space follows. *)
Definition finish (v : number) (rest : string) : number :=
  if String.eqb (skipWhite rest) "" then v else NaN.

Definition isOneOf (c a b : ascii) : bool :=
  Ascii.eqb c a || Ascii.eqb c b.

(** [NonDecimalIntegerLiteral]: 0x, 0o, 0b and their capitals. *)
Definition radixPrefix (s : string) : option (Z * string) :=
  match s with
  | String "0" (String c r) =>
      if isOneOf c "x" "X" then Some (16, r)
      else if isOneOf c "o" "O" then Some (8, r)
      else if isOneOf c "b" "B" then Some (2, r)
      else None
  | _ => None
  end.

Definition takeSign (s : string) : bool * string :=
  match s with
  | String "+" r => (false, r)
  | String "-" r => (true, r)
  | _ => (false, s)
  end.

(** [ExponentPart]: when the indicator is not followed by a signed
    integer the rest still starts with it, and [finish] rejects. *)
Definition exponentPart (s : string) : Z * string :=
  match s with
  | String c r =>
      if isOneOf c "e" "E" then
        let '(neg, r1) := takeSign r in
        let '(v, n, r2) := takeDigits 10 r1 0 O in
        match n with
        | O => (0, s)
        | _ => (if neg then - v else v, r2)
        end
      else (0, s)
  | EmptyString => (0, s)
  end.

(** [StrUnsignedDecimalLiteral], rounded to the nearest Number. *)
Definition unsignedDecimal (neg : bool) (s : string) : number :=
  if prefix "Infinity" s then finish (Infinity neg) (dropChars 8 s)
  else
    let '(ip, ni, r1) := takeDigits 10 s 0 O in
    let '(m, nf, r2) :=
      match r1 with
      | String "." r => takeDigits 10 r ip O
      | _ => (ip, O, r1)
      end in
    match ni, nf with
    | O, O => NaN
    | _, _ =>
        let '(e, r3) := exponentPart r2 in
        let e' := e - Z.of_nat nf in
        finish (if 0 <=? e' then ofRatio neg (m * 10 ^ e') 1
                else ofRatio neg m (10 ^ (- e'))) r3
    end.

(** [Number(s)] for a string [s] (StringToNumber). *)
Definition StringToNumber (s : string) : number :=
  let t := skipWhite s in
  if String.eqb t "" then S754_zero false
  else match radixPrefix t with
       | Some (radix, r) =>
           let '(v, n, rest) := takeDigits radix r 0 O in
           match n with
           | O => NaN
           | _ => finish (ofZ v) rest
           end
       | None => let '(neg, r) := takeSign t in unsignedDecimal neg r
       end.

(** [parseInt(s)] with no radix argument: NaN when no digit is read,
    otherwise the Number value of the signed integer read, that is, the
    integer rounded to binary64 (ties to even), an infinity when it is too
    large, and [-0] for a negative zero. *)
Definition parseInt (s : string) : number :=
  let '(neg, t) := takeSign (skipWhite s) in
  let '(radix, t') :=
    match t with
    | String "0" (String c r) =>
        if isOneOf c "x" "X" then (16, r) else (10, t)
    | _ => (10, t)
    end in
  let '(v, n, _) := takeDigits radix t' 0 O in
  match n with
  | O => NaN
  | _ => binary_normalize prec emax (if neg then - v else v) 0 neg
  end.

(** *** Dates: the date-only form [YYYY-MM-DD] of the Date Time String
    Format, which denotes midnight UTC. *)

Definition isLeap (y : Z) : bool :=
  (y mod 4 =? 0) && (negb (y mod 100 =? 0) || (y mod 400 =? 0)).

Definition DayFromYear (y : Z) : Z :=
  365 * (y - 1970) + (y - 1969) / 4 - (y - 1901) / 100 + (y - 1601) / 400.

Definition monthLengths (leap : bool) : list Z :=
  [31; if leap then 29 else 28; 31; 30; 31; 30; 31; 31; 30; 31; 30; 31].

Definition daysInMonth (y m : Z) : Z :=
  nth (Z.to_nat (m - 1)) (monthLengths (isLeap y)) 0.

Definition daysBeforeMonth (y m : Z) : Z :=
  fold_right Z.add 0 (firstn (Z.to_nat (m - 1)) (monthLengths (isLeap y))).

Definition MakeDay (y m d : Z) : Z :=
  DayFromYear y + daysBeforeMonth y m + (d - 1).

Definition msPerDay : Z := 86400000.

Definition fixedDigits (n : nat) (s : string) : option (Z * string) :=
  let '(v, k, r) := takeDigits 10 (substring 0 n s) 0 O in
  if (Nat.eqb k n) && String.eqb r "" then Some (v, dropChars n s) else None.

Definition expectDash (s : string) : option string :=
  match s with
  | String c r => if Ascii.eqb c "-" then Some r else None
  | EmptyString => None
  end.

Definition isoDateOnly (s : string) : option Z :=
  match fixedDigits 4 s with
  | None => None
  | Some (y, r1) =>
  match expectDash r1 with
  | None => None
  | Some r1' =>
  match fixedDigits 2 r1' with
  | None => None
  | Some (m, r2) =>
  match expectDash r2 with
  | None => None
  | Some r2' =>
  match fixedDigits 2 r2' with
  | None => None
  | Some (d, r3) =>
      if String.eqb r3 "" && (1 <=? m) && (m <=? 12) && (1 <=? d)
         && (d <=? daysInMonth y m)
      then Some (MakeDay y m d * msPerDay)
      else None
  end end end end end.

(** [Date.parse]: the date-only form is fixed by the language; for every
    other string the result is left to the host ([hostParse]), which
    covers the local-time forms and the engine's own formats. *)
Definition DateParse (hostParse : string -> number) (s : string) : number :=
  match isoDateOnly s with
  | Some t => ofZ t
  | None => hostParse s
  end.

End JsText.
Export JsText.


(* ================================================================== *)
(** ** Data model (the type declarations of [app.ts]) *)
(* ================================================================== *)

(** [number | string], the type of [QuestionType.value] and
    [FilterClauseType.value]. *)
Inductive JsValue : Type :=
| VNum (n : number)
| VStr (s : string).

Definition typeof (v : JsValue) : string :=
  match v with
  | VNum _ => "number"
  | VStr _ => "string"
  end.

(** [a === b] on values of type [number | string]. *)
Definition strictEquals (a b : JsValue) : bool :=
  match a, b with
  | VNum x, VNum y => JsNum.strictEq x y
  | VStr x, VStr y => String.eqb x y
  | _, _ => false
  end.

(** [Number(v)]. *)
Definition Number_ (v : JsValue) : number :=
  match v with
  | VNum n => n
  | VStr s => StringToNumber s
  end.

(** Fields the handler never looks at ([any] in the source). *)
Definition Opaque : Type := string.

(** The fields [id], [name], [type], [value] of [QuestionType]; the
    projections carry a prefix because [FilterClauseType] has an [id] and
    a [value] too. *)
Record QuestionType : Type := {
  q_id : string;
  q_name : string;
  q_type : string;
  q_value : JsValue
}.

Record SubmissionType : Type := {
  submissionId : string;
  submissionTime : string;
  lastUpdatedAt : string;
  questions : list QuestionType;
  calculations : Opaque;
  urlParameters : Opaque;
  quiz : Opaque;
  documents : Opaque
}.

(** [condition] stays a string: the type annotation is erased at run time
    and the [switch] has a [default] branch for every other tag. *)
Record FilterClauseType : Type := {
  c_id : string;
  c_condition : string;
  c_value : JsValue
}.

(** [pageCount] is [None] when [Math.ceil(length / limit)] is not finite,
    which takes a zero limit. *)
Record ReturnType : Type := {
  responses : list SubmissionType;
  totalResponses : Z;
  pageCount : option Z
}.

(* ================================================================== *)
(** ** Pagination *)
(* ================================================================== *)

(** [Array.prototype.slice(start, end)] on integral arguments: a negative
    index counts from the end of the array, and both are clamped to
    [0 .. length]. *)
Definition relativeIndex (len i : Z) : Z :=
  if i <? 0 then Z.max (len + i) 0 else Z.min i len.

Definition slice {A : Type} (data : list A) (start final : Z) : list A :=
  let len := Z.of_nat (List.length data) in
  let k := relativeIndex len start in
  let f := relativeIndex len final in
  firstn (Z.to_nat (f - k)) (skipn (Z.to_nat k) data).

(** [Math.ceil(n / l)] for integers [n] and [l]: [limit] and [offset] are
    the integers that [parseInt] gives, and the quotient of an array
    length by such an integer rounds to the same ceiling. *)
Definition ceilDiv (n l : Z) : option Z :=
  if l =? 0 then None else Some (- ((- n) / l)).

Definition paginateData (data : list SubmissionType) (limit offset : Z)
  : ReturnType :=
  let startIndex := offset in
  let endIndex := offset + limit in
  let responses := slice data startIndex endIndex in
  let totalResponses := Z.of_nat (List.length responses) in
  let pageCount := ceilDiv (Z.of_nat (List.length data)) limit in
  {| responses := responses;
     totalResponses := totalResponses;
     pageCount := pageCount |}.

(** *** [paginateData] on the numbers that the handler passes *)

(** What a number stands for as a slice index or as a divisor of a
    length: an integer (a finite value, truncated toward zero), an
    infinity, or nothing (NaN). *)
Inductive Integral : Type :=
| Finite (z : Z)
| PlusInfinity
| MinusInfinity
| NotNumber.

Definition integralOf (x : number) : Integral :=
  match x with
  | S754_nan => NotNumber
  | S754_infinity false => PlusInfinity
  | S754_infinity true => MinusInfinity
  | S754_zero _ => Finite 0
  | S754_finite s m e => Finite (truncZ s m e)
  end.

(** [offset + limit], read as an index: opposite infinities give NaN; a
    finite sum is kept exact, since a sum of integers that binary64 rounds
    lies beyond 2^53 and is clamped by [slice] as the exact one is. *)
Definition sumIntegral (a b : Integral) : Integral :=
  match a, b with
  | NotNumber, _ | _, NotNumber => NotNumber
  | PlusInfinity, MinusInfinity | MinusInfinity, PlusInfinity => NotNumber
  | PlusInfinity, _ | _, PlusInfinity => PlusInfinity
  | MinusInfinity, _ | _, MinusInfinity => MinusInfinity
  | Finite x, Finite y => Finite (x + y)
  end.

(** The index that [slice] makes of its argument: NaN counts as 0, the
    infinities as the two ends. *)
Definition relativeIndexOf (len : Z) (i : Integral) : Z :=
  match i with
  | Finite z => relativeIndex len z
  | PlusInfinity => len
  | MinusInfinity => 0
  | NotNumber => 0
  end.

(** [Math.ceil(n / l)] for a length [n]: a quotient by an infinity is a
    zero. *)
Definition ceilDivOf (n : Z) (l : Integral) : option Z :=
  match l with
  | Finite z => ceilDiv n z
  | PlusInfinity | MinusInfinity => Some 0
  | NotNumber => None
  end.

(** [paginateData(data, limit, offset)] as the handler calls it, with the
    two numbers that [parseInt(..) || default] gives: integral values,
    finite or infinite.  On finite ones it is [paginateData] over the
    integers. *)
Definition paginateNumbers (data : list SubmissionType)
  (limit offset : number) : ReturnType :=
  let len := Z.of_nat (List.length data) in
  let startIndex := integralOf offset in
  let endIndex := sumIntegral (integralOf offset) (integralOf limit) in
  let k := relativeIndexOf len startIndex in
  let f := relativeIndexOf len endIndex in
  let responses := firstn (Z.to_nat (f - k)) (skipn (Z.to_nat k) data) in
  {| responses := responses;
     totalResponses := Z.of_nat (List.length responses);
     pageCount := ceilDivOf len (integralOf limit) |}.

(* ================================================================== *)
(** ** The Express response and the effects of the handler *)
(* ================================================================== *)

(** What the code throws or receives as a rejection: an Axios error (with
    the status of the upstream response, when there is one) or any other
    [Error]. *)
Inductive Exn : Type :=
| AxiosError (status : option Z) (message : string)
| OtherError (message : string).

(** The two shapes of body that the handler passes to [res.json]. *)
Inductive JsonBody : Type :=
| ErrorBody (error : string)
| PageBody (page : ReturnType).

(** [res]: the status code set so far and the response written, if any. *)
Record Response : Type := {
  statusCode : Z;
  sent : option (Z * JsonBody)
}.

Definition freshResponse : Response := {| statusCode := 200; sent := None |}.

Inductive Result (A : Type) : Type :=
| Ok (a : A)
| Throw (e : Exn).
Arguments Ok {A} a.
Arguments Throw {A} e.

(** Computations that read and write [res] and may throw. *)
Definition M (A : Type) : Type := Response -> Result A * Response.

Definition ret {A : Type} (a : A) : M A := fun r => (Ok a, r).

Definition bind {A B : Type} (m : M A) (k : A -> M B) : M B :=
  fun r =>
    match m r with
    | (Ok a, r') => k a r'
    | (Throw e, r') => (Throw e, r')
    end.

Definition throw {A : Type} (e : Exn) : M A := fun r => (Throw e, r).

Definition tryCatch {A : Type} (m : M A) (h : Exn -> M A) : M A :=
  fun r =>
    match m r with
    | (Ok a, r') => (Ok a, r')
    | (Throw e, r') => h e r'
    end.

Notation "x <- m ;; k" := (bind m (fun x => k))
  (at level 61, m at next level, right associativity).
Notation "m ;; k" := (bind m (fun _ => k))
  (at level 61, right associativity).

(** [res.status(code)]. *)
Definition status (code : Z) : M unit :=
  fun r => (Ok tt, {| statusCode := code; sent := sent r |}).

(** [res.json(body)]: writes the response with the current status; a
    second write throws (the headers are already sent). *)
Definition json (b : JsonBody) : M unit :=
  fun r =>
    match sent r with
    | Some _ =>
        (Throw (OtherError "Cannot set headers after they are sent to the client"), r)
    | None =>
        (Ok tt, {| statusCode := statusCode r;
                   sent := Some (statusCode r, b) |})
    end.

(** What a callback hands back to [every]: a boolean, or the response
    object [res] (the value of [res.status(..).json(..)]). *)
Inductive CbResult : Type :=
| CbBool (b : bool)
| CbRes.

(** [ToBoolean]: an object is truthy. *)
Definition truthy (v : CbResult) : bool :=
  match v with
  | CbBool b => b
  | CbRes => true
  end.

(** [Array.prototype.every] and [Array.prototype.filter] with a callback
    that runs in [M]. *)
Fixpoint every {A : Type} (f : A -> M CbResult) (l : list A) : M bool :=
  match l with
  | [] => ret true
  | x :: l' => v <- f x ;; if truthy v then every f l' else ret false
  end.

Fixpoint filterM {A : Type} (f : A -> M bool) (l : list A) : M (list A) :=
  match l with
  | [] => ret []
  | x :: l' =>
      keep <- f x ;;
      rest <- filterM f l' ;;
      ret (if keep then x :: rest else rest)
  end.

(* ================================================================== *)
(** ** The filter (lines 126-164) *)
(* ================================================================== *)

Section Filter.

(** The host's [Date.parse] outside the date-only form. *)
Variable hostParse : string -> number.

(** [new Date(v).getTime()]. *)
Definition DateGetTime (v : JsValue) : number :=
  TimeClip match v with
           | VStr s => DateParse hostParse s
           | VNum n => n
           end.

(** [submission.questions.find((q) => q.id === clause.id)]. *)
Definition findQuestion (submission : SubmissionType)
  (clause : FilterClauseType) : option QuestionType :=
  List.find (fun q => String.eqb (q_id q) (c_id clause))
            (questions submission).

Definition isDatePicker (question : QuestionType) : bool :=
  String.eqb (q_type question) "DatePicker".

(** The coercion applied to both operands of the comparison. *)
Definition coerce (question : QuestionType) (v : JsValue) : number :=
  if isDatePicker question then DateGetTime v else Number_ v.

(** The [switch] on [clause.condition]. *)
Definition switchCondition (question : QuestionType)
  (clause : FilterClauseType) (filterValue filterClause : number) : bool :=
  let cond := c_condition clause in
  if String.eqb cond "equals" then
    strictEquals (q_value question) (c_value clause)
  else if String.eqb cond "does_not_equal" then
    negb (strictEquals (q_value question) (c_value clause))
  else if String.eqb cond "greater_than" then
    JsNum.gt filterValue filterClause
  else if String.eqb cond "less_than" then
    JsNum.lt filterValue filterClause
  else false.

(** The body of the callback once the question is found (lines 134-162). *)
Definition evalClause (question : QuestionType) (clause : FilterClauseType)
  : M CbResult :=
  let filterValue := coerce question (q_value question) in
  let filterClause := coerce question (c_value clause) in
  if negb (String.eqb (typeof (VNum filterValue))
                      (typeof (VNum filterClause)))
  then
    status 400 ;;
    json (ErrorBody ("Invalid filter type for " ++ q_id question)) ;;
    ret CbRes
  else ret (CbBool (switchCondition question clause filterValue filterClause)).

(** The callback given to [every] (lines 127-163). *)
Definition clauseCallback (submission : SubmissionType)
  (clause : FilterClauseType) : M CbResult :=
  match findQuestion submission clause with
  | None => ret (CbBool false)
  | Some question => evalClause question clause
  end.

(** [submissions.filter((submission) => filterClauses.every(..))]. *)
Definition filteredSubmissions (submissions : list SubmissionType)
  (filterClauses : list FilterClauseType) : M (list SubmissionType) :=
  filterM (fun submission =>
             every (clauseCallback submission) filterClauses)
          submissions.

End Filter.

(* ================================================================== *)
(** ** The route handler (lines 69-185) *)
(* ================================================================== *)

(** [req.body] after [express.json()]: a JSON array, read at the type
    [FilterClauseType[]], or any other JSON value. *)
Inductive Body : Type :=
| BodyArray (filterClauses : list FilterClauseType)
| BodyOther.

(** The parts of [req] that the handler reads: [req.params.formId],
    [req.body], [req.headers.authorization], [req.query.limit] and
    [req.query.offset]. *)
Record Request : Type := {
  params_formId : string;
  body : Body;
  headers_authorization : option string;
  query_limit : option string;
  query_offset : option string
}.

(** The settled promise of [axios.get]: a response with its status and the
    [message] and [responses] fields of its data ([None]: not a string,
    not an array), or a rejection. *)
Inductive UpstreamReply : Type :=
| Resolved (status : Z) (message : option string)
           (responses : option (list SubmissionType))
| Rejected (e : Exn).

(** One run of the handler: the response object at the end, the upstream
    calls made (URL and [Authorization] header), and whether the handler's
    promise was fulfilled or rejected. *)
Record Run : Type := {
  finalRes : Response;
  upstreamCalls : list (string * string);
  outcome : Result unit
}.

(** [!x] for a number: NaN, [+0] and [-0] are falsy. *)
Definition falsyNumber (x : number) : bool :=
  match x with
  | S754_nan | S754_zero _ => true
  | _ => false
  end.

(** [parseInt(q) || dflt]; an absent parameter reads as [undefined] and
    parses to NaN. *)
Definition queryInt (q : option string) (dflt : number) : number :=
  match q with
  | None => dflt
  | Some s => if falsyNumber (parseInt s) then dflt else parseInt s
  end.

(** [!authorizationHeader]: absent or empty. *)
Definition missing (h : option string) : bool :=
  match h with
  | None => true
  | Some s => String.eqb s ""
  end.

Definition showZ (z : Z) : string := NilZero.string_of_int (Z.to_int z).

Definition submissionsUrl (formId : string) : string :=
  "https://api.fillout.com/v1/api/forms/" ++ formId ++ "/submissions".

Section Handler.

Variable hostParse : string -> number.

(** [axios.get(url, config)], by URL and [Authorization] header. *)
Variable axiosGet : string -> string -> UpstreamReply.

(** Lines 112-166, after the upstream call has settled. *)
Definition afterFetch (reply : UpstreamReply)
  (filterClauses : list FilterClauseType) (limit offset : number) : M unit :=
  match reply with
  | Rejected e => throw e
  | Resolved st message submissions =>
      if negb (st =? 200) then
        throw (OtherError
                 match message with
                 | Some m => if String.eqb m "" then
                               "Request failed with status code " ++ showZ st
                             else m
                 | None => "Request failed with status code " ++ showZ st
                 end)
      else
        match submissions with
        | None =>
            status 400 ;;
            json (ErrorBody "Filters must be nested in an array.")
        | Some submissions =>
            filtered <- filteredSubmissions hostParse submissions
                          filterClauses ;;
            json (PageBody (paginateNumbers filtered limit offset))
        end
  end.

(** The [catch] block (lines 167-184): one response for the error, then
    a second [res.status(500).json(..)] on the same response. *)
Definition catchBlock (error : Exn) : M unit :=
  match error with
  | AxiosError st message =>
      status match st with
             | None | Some 0 => 500
             | Some s => s
             end ;;
      json (ErrorBody message)
  | OtherError _ =>
      status 500 ;; json (ErrorBody "Internal Server Error")
  end ;;
  status 500 ;; json (ErrorBody "Internal Server Error").

Definition runM (calls : list (string * string)) (m : M unit) : Run :=
  let '(o, r) := m freshResponse in
  {| finalRes := r; upstreamCalls := calls; outcome := o |}.

Definition handler (req : Request) : Run :=
  let formId := params_formId req in
  let authorizationHeader := headers_authorization req in
  let limit := queryInt (query_limit req) (ofZ 150) in
  let offset := queryInt (query_offset req) (ofZ 0) in
  if missing authorizationHeader then
    runM [] (status 403 ;;
             throw (OtherError "Please provide a valid API key."))
  else if String.eqb formId "" then
    runM [] (status 400 ;;
             throw (OtherError "Please provide a valid form ID."))
  else
    match body req with
    | BodyOther =>
        runM [] (status 400 ;;
                 json (ErrorBody "Invalid filter clauses - must be an array"))
    | BodyArray filterClauses =>
        match filterClauses with
        | [] =>
            runM [] (status 400 ;;
                     json (ErrorBody "Please provide atleast 1 filter."))
        | _ :: _ =>
            let auth := match authorizationHeader with
                        | Some a => a
                        | None => ""
                        end in
            let url := submissionsUrl formId in
            runM [(url, auth)]
                 (tryCatch
                    (afterFetch (axiosGet url auth) filterClauses
                                limit offset)
                    catchBlock)
        end
    end.

End Handler.

(* ================================================================== *)
(** ** Specification-side definitions *)
(* ================================================================== *)

Section Reading.

Variable hostParse : string -> number.

(** The boolean a clause comes to for a submission, read off the
    callback: what [every] tests when no response is written. *)
Definition clausePasses (submission : SubmissionType)
  (clause : FilterClauseType) : bool :=
  match findQuestion submission clause with
  | None => false
  | Some question =>
      switchCondition question clause
        (coerce hostParse question (q_value question))
        (coerce hostParse question (c_value clause))
  end.

(** The specification's wording of one clause on a found
    question-answer: the four conditions, nothing for any other tag. *)
Inductive conditionHolds (question : QuestionType)
  (clause : FilterClauseType) : Prop :=
| holds_equals :
    c_condition clause = "equals" ->
    strictEquals (q_value question) (c_value clause) = true ->
    conditionHolds question clause
| holds_does_not_equal :
    c_condition clause = "does_not_equal" ->
    strictEquals (q_value question) (c_value clause) = false ->
    conditionHolds question clause
| holds_greater_than :
    c_condition clause = "greater_than" ->
    JsNum.gt (coerce hostParse question (q_value question))
             (coerce hostParse question (c_value clause)) = true ->
    conditionHolds question clause
| holds_less_than :
    c_condition clause = "less_than" ->
    JsNum.lt (coerce hostParse question (q_value question))
             (coerce hostParse question (c_value clause)) = true ->
    conditionHolds question clause.

(** A submission satisfies a clause when the question-answer that the
    clause targets exists and the condition holds on it. *)
Definition satisfies (submission : SubmissionType)
  (clause : FilterClauseType) : Prop :=
  exists question,
    findQuestion submission clause = Some question
    /\ conditionHolds question clause.

End Reading.

(** The specification's wording of a page: the elements of [data] whose
    index [i] has [lo <= i < hi]. *)
Fixpoint windowFrom {A : Type} (i : Z) (data : list A) (lo hi : Z) : list A :=
  match data with
  | [] => []
  | x :: rest =>
      if (lo <=? i) && (i <? hi) then x :: windowFrom (i + 1) rest lo hi
      else windowFrom (i + 1) rest lo hi
  end.

Definition window {A : Type} (data : list A) (lo hi : Z) : list A :=
  windowFrom 0 data lo hi.

(** [pc] is the ceiling of [n / l], for a positive [l]. *)
Definition isCeiling (n l pc : Z) : Prop := (pc - 1) * l < n <= pc * l.

(** [page] is a non-empty run of trailing elements of [data]. *)
Definition trailingElements {A : Type} (page data : list A) : Prop :=
  page <> [] /\ exists front, data = (front ++ page)%list.

(** The mantissa and exponent of the Number value of a positive integer
    below 2^53. *)
Definition normalForm (p : positive) : positive * Z :=
  shl_align p 0 (Zpos (digits2_pos p) - prec).

(** *** Sample data for the concrete runs *)

Definition sampleQuestion (id type : string) (v : JsValue) : QuestionType :=
  {| q_id := id; q_name := "Question " ++ id; q_type := type; q_value := v |}.

Definition sampleSubmission (sid : string) (qs : list QuestionType)
  : SubmissionType :=
  {| submissionId := sid;
     submissionTime := "2024-02-27T19:37:08.228Z";
     lastUpdatedAt := "2024-02-27T19:37:08.228Z";
     questions := qs;
     calculations := "[]";
     urlParameters := "[]";
     quiz := "{}";
     documents := "[]" |}.

Definition sampleClause (id cond : string) (v : JsValue) : FilterClauseType :=
  {| c_id := id; c_condition := cond; c_value := v |}.

Definition sampleRequest (auth : option string) (b : Body)
  (limit offset : option string) : Request :=
  {| params_formId := "cLZojxk94ous";
     body := b;
     headers_authorization := auth;
     query_limit := limit;
     query_offset := offset |}.

(** Three submissions that answer ["q1"] with ["yes"], and a clause that
    all three pass. *)
Definition subA : SubmissionType :=
  sampleSubmission "A" [sampleQuestion "q1" "ShortAnswer" (VStr "yes")].
Definition subB : SubmissionType :=
  sampleSubmission "B" [sampleQuestion "q1" "ShortAnswer" (VStr "yes")].
Definition subC : SubmissionType :=
  sampleSubmission "C" [sampleQuestion "q1" "ShortAnswer" (VStr "yes")].

Definition yesClause : FilterClauseType :=
  sampleClause "q1" "equals" (VStr "yes").

(** An upstream that answers every call with status 200 and the given
    submissions. *)
Definition upstreamWith (subs : list SubmissionType)
  : string -> string -> UpstreamReply :=
  fun _ _ => Resolved 200 None (Some subs).

(** A host whose [Date.parse] knows nothing beyond the date-only form. *)
Definition plainHost : string -> number := fun _ => NaN.

(** *** Notions used for the further properties of the code *)

(** [k] is [l] with some elements left out, the others in their order. *)
Inductive Subsequence {A : Type} : list A -> list A -> Prop :=
| Subsequence_nil : Subsequence [] []
| Subsequence_skip (x : A) (k l : list A) :
    Subsequence k l -> Subsequence k (x :: l)
| Subsequence_keep (x : A) (k l : list A) :
    Subsequence k l -> Subsequence (x :: k) (x :: l).

(** The four tags that the [switch] of the callback has a case for. *)
Definition knownCondition (cond : string) : Prop :=
  cond = "equals" \/ cond = "does_not_equal"
  \/ cond = "greater_than" \/ cond = "less_than".

(** A request that passes the four checks of lines 76-100, with its
    credential [a] and its clauses [cs]. *)
Definition validRequest (req : Request) (a : string)
  (cs : list FilterClauseType) : Prop :=
  headers_authorization req = Some a /\ a <> ""
  /\ params_formId req <> ""
  /\ body req = BodyArray cs /\ cs <> [].

(** The pages at the offsets [0], [L], [2L], .. of the first [n] requests
    of a client that walks through the result, one after the other. *)
Definition walkPages (data : list SubmissionType) (L : Z) (n : nat)
  : list SubmissionType :=
  List.concat (map (fun i => responses (paginateData data L (Z.of_nat i * L)))
                   (seq 0 n)).

(* ================================================================== *)
(** ** Concrete runs of the runtime model *)
(* ================================================================== *)

Example Number_of_strings :
  StringToNumber "42" = ofZ 42
  /\ StringToNumber "  12.5 " = ofRatio false 125 10
  /\ StringToNumber "1e3" = ofZ 1000
  /\ StringToNumber "0x1F" = ofZ 31
  /\ StringToNumber "" = S754_zero false
  /\ StringToNumber "-0" = S754_zero true
  /\ StringToNumber "-Infinity" = Infinity true
  /\ StringToNumber "abc" = NaN
  /\ StringToNumber "5px" = NaN
  /\ StringToNumber "1e" = NaN
  /\ StringToNumber "." = NaN.
Proof. repeat split. Qed.

Example parseInt_of_strings :
  parseInt "10" = ofZ 10
  /\ parseInt " -3" = ofZ (-3)
  /\ parseInt "12px" = ofZ 12
  /\ parseInt "0x10" = ofZ 16
  /\ parseInt "-0" = S754_zero true
  /\ parseInt "abc" = NaN
  /\ parseInt "" = NaN.
Proof. repeat split. Qed.

(** Beyond 2^53 the integer read is rounded, and a digit string of 310
    digits is an infinity. *)
Example parseInt_rounds :
  parseInt "9007199254740993" = ofZ 9007199254740992
  /\ integralOf (parseInt "-9007199254740993") = Finite (-9007199254740992)
  /\ integralOf (parseInt "9007199254740994") = Finite 9007199254740994
  /\ parseInt (String "1" (string_of_list_ascii (repeat "0"%char 309)))
     = Infinity false.
Proof. repeat split; vm_compute; reflexivity. Qed.

Example queryInt_defaults :
  queryInt None (ofZ 150) = ofZ 150
  /\ queryInt (Some "abc") (ofZ 150) = ofZ 150
  /\ queryInt (Some "0") (ofZ 150) = ofZ 150
  /\ queryInt (Some "-0") (ofZ 150) = ofZ 150
  /\ queryInt (Some "25") (ofZ 150) = ofZ 25
  /\ queryInt (Some "-2") (ofZ 0) = ofZ (-2).
Proof. repeat split. Qed.

Example date_only_strings :
  isoDateOnly "1970-01-01" = Some 0
  /\ isoDateOnly "2024-01-01" = Some 1704067200000
  /\ isoDateOnly "2024-02-29" = Some 1709164800000
  /\ isoDateOnly "2023-02-29" = None
  /\ isoDateOnly "2024-1-01" = None
  /\ isoDateOnly "yesterday" = None.
Proof. repeat split. Qed.

Example slice_runs :
  slice [1; 2; 3; 4; 5] 1 3 = [2; 3]
  /\ slice [1; 2; 3; 4; 5] 3 10 = [4; 5]
  /\ slice [1; 2; 3; 4; 5] 7 9 = []
  /\ slice [1; 2; 3; 4; 5] (-2) 10 = [4; 5]
  /\ slice [1; 2; 3; 4; 5] (-4) (-1) = [2; 3; 4]
  /\ slice [1; 2; 3; 4; 5] (-2) 1 = [].
Proof. repeat split. Qed.

(** An upstream rejection with status 404: the [catch] block answers 404
    with the Axios message; its second [res.json] finds the response
    written and throws. *)
Example upstream_404_run :
  handler plainHost
    (fun _ _ => Rejected (AxiosError (Some 404)
                            "Request failed with status code 404"))
    (sampleRequest (Some "Bearer key") (BodyArray [yesClause]) None None)
  = {| finalRes :=
         {| statusCode := 500;
            sent := Some (404, ErrorBody "Request failed with status code 404") |};
       upstreamCalls := [(submissionsUrl "cLZojxk94ous", "Bearer key")];
       outcome :=
         Throw (OtherError "Cannot set headers after they are sent to the client") |}.
Proof. reflexivity. Qed.

(** An offset beyond 2^53 reaches [slice] as the number it rounds to:
    ["-9007199254740993"] is read as -2^53, which with the limit
    9007199254740994 gives the end index 2. *)
Example rounded_offset_run :
  sent (finalRes
          (handler plainHost (upstreamWith [subA; subB; subC])
             (sampleRequest (Some "Bearer key") (BodyArray [yesClause])
                (Some "9007199254740994") (Some "-9007199254740993"))))
  = Some (200, PageBody {| responses := [subA; subB];
                           totalResponses := 2;
                           pageCount := Some 1 |}).
Proof. vm_compute. reflexivity. Qed.

(** A limit of 310 digits is read as an infinity: the page is the whole
    filtered list and the page count is 0. *)
Example infinite_limit_run :
  sent (finalRes
          (handler plainHost (upstreamWith [subA; subB; subC])
             (sampleRequest (Some "Bearer key") (BodyArray [yesClause])
                (Some (String "1" (string_of_list_ascii (repeat "0"%char 309))))
                None)))
  = Some (200, PageBody {| responses := [subA; subB; subC];
                           totalResponses := 3;
                           pageCount := Some 0 |}).
Proof. vm_compute. reflexivity. Qed.

(* ================================================================== *)
(** ** The callback writes no response *)
(* ================================================================== *)

Section FilterFacts.

Variable hostParse : string -> number.

Lemma typeof_number (x y : number) :
  String.eqb (typeof (VNum x)) (typeof (VNum y)) = true.
Proof. reflexivity. Qed.

Lemma evalClause_pure (question : QuestionType) (clause : FilterClauseType)
  (r : Response) :
  evalClause hostParse question clause r
  = (Ok (CbBool (switchCondition question clause
                   (coerce hostParse question (q_value question))
                   (coerce hostParse question (c_value clause)))), r).
Proof. unfold evalClause. rewrite typeof_number. reflexivity. Qed.

Lemma clauseCallback_pure (s : SubmissionType) (c : FilterClauseType)
  (r : Response) :
  clauseCallback hostParse s c r = (Ok (CbBool (clausePasses hostParse s c)), r).
Proof.
  unfold clauseCallback, clausePasses.
  destruct (findQuestion s c) as [q|]; [apply evalClause_pure | reflexivity].
Qed.

Lemma every_pure (s : SubmissionType) (cs : list FilterClauseType)
  (r : Response) :
  every (clauseCallback hostParse s) cs r
  = (Ok (forallb (clausePasses hostParse s) cs), r).
Proof.
  induction cs as [|c cs IH]; [reflexivity|].
  cbn [every forallb]. unfold bind. rewrite clauseCallback_pure.
  cbn [truthy]. destruct (clausePasses hostParse s c); [exact IH | reflexivity].
Qed.

Lemma filteredSubmissions_pure (subs : list SubmissionType)
  (cs : list FilterClauseType) (r : Response) :
  filteredSubmissions hostParse subs cs r
  = (Ok (List.filter (fun s => forallb (clausePasses hostParse s) cs) subs), r).
Proof.
  unfold filteredSubmissions.
  induction subs as [|s subs IH]; [reflexivity|].
  cbn [filterM List.filter]. unfold bind at 1. rewrite every_pure.
  unfold bind at 1. rewrite IH. reflexivity.
Qed.

Lemma switchCondition_holds (q : QuestionType) (c : FilterClauseType) :
  switchCondition q c (coerce hostParse q (q_value q))
                      (coerce hostParse q (c_value c)) = true
  <-> conditionHolds hostParse q c.
Proof.
  unfold switchCondition. split.
  - destruct (String.eqb_spec (c_condition c) "equals") as [E|_].
    { intro H. now apply holds_equals. }
    destruct (String.eqb_spec (c_condition c) "does_not_equal") as [E|_].
    { intro H. apply holds_does_not_equal; [exact E|].
      now apply negb_true_iff. }
    destruct (String.eqb_spec (c_condition c) "greater_than") as [E|_].
    { intro H. now apply holds_greater_than. }
    destruct (String.eqb_spec (c_condition c) "less_than") as [E|_].
    { intro H. now apply holds_less_than. }
    discriminate.
  - intros [E H|E H|E H|E H]; rewrite E; cbn; try exact H.
    now rewrite H.
Qed.

Lemma clausePasses_satisfies (s : SubmissionType) (c : FilterClauseType) :
  clausePasses hostParse s c = true <-> satisfies hostParse s c.
Proof.
  unfold clausePasses, satisfies. split.
  - destruct (findQuestion s c) as [q|] eqn:F; [|discriminate].
    intro H. exists q. split; [reflexivity|].
    now apply switchCondition_holds.
  - intros [q [F H]]. rewrite F. now apply switchCondition_holds.
Qed.

Lemma findQuestion_absent (s : SubmissionType) (c : FilterClauseType) :
  (forall q, In q (questions s) -> q_id q <> c_id c) ->
  findQuestion s c = None.
Proof.
  unfold findQuestion. intro H.
  induction (questions s) as [|q qs IH]; [reflexivity|].
  cbn [List.find].
  destruct (String.eqb_spec (q_id q) (c_id c)) as [E|_].
  - exfalso. apply (H q); [now left | exact E].
  - apply IH. intros q' Hq'. apply H. now right.
Qed.

End FilterFacts.

(* ================================================================== *)
(** ** Integers as numbers: order is kept below 2^53 *)
(* ================================================================== *)

Lemma digits2_pos_bounds (p : positive) :
  2 ^ (Zpos (digits2_pos p) - 1) <= Zpos p < 2 ^ Zpos (digits2_pos p).
Proof.
  induction p as [p IH|p IH|]; cbn [digits2_pos].
  - rewrite Pos2Z.inj_succ, Z.pow_succ_r by lia.
    replace (Z.succ (Zpos (digits2_pos p)) - 1) with (Z.succ (Zpos (digits2_pos p) - 1)) by lia.
    rewrite Z.pow_succ_r by lia. lia.
  - rewrite Pos2Z.inj_succ, Z.pow_succ_r by lia.
    replace (Z.succ (Zpos (digits2_pos p)) - 1) with (Z.succ (Zpos (digits2_pos p) - 1)) by lia.
    rewrite Z.pow_succ_r by lia. lia.
  - cbn. lia.
Qed.

Lemma iter_xO_value (p k : positive) :
  Zpos (Pos.iter xO p k) = Zpos p * 2 ^ Zpos k.
Proof.
  induction k as [|k IH] using Pos.peano_ind.
  - cbn. lia.
  - rewrite Pos.iter_succ, Pos2Z.inj_succ, Z.pow_succ_r by lia.
    rewrite Pos2Z.inj_xO, IH. lia.
Qed.

Lemma iter_xO_digits (p k : positive) :
  digits2_pos (Pos.iter xO p k) = (digits2_pos p + k)%positive.
Proof.
  induction k as [|k IH] using Pos.peano_ind.
  - cbn. lia.
  - rewrite Pos.iter_succ. cbn [digits2_pos]. rewrite IH. lia.
Qed.

Lemma binary_round_aux_canonical (s : bool) (m : positive) (e : Z) :
  canonical_mantissa prec emax m e = true ->
  e <= emax - prec ->
  binary_round_aux prec emax s (Zpos m) e loc_Exact = S754_finite s m e.
Proof.
  intros C B. unfold canonical_mantissa in C. apply Z.eqb_eq in C.
  unfold binary_round_aux, shr_fexp. cbn [Zdigits2]. rewrite C, Z.sub_diag.
  cbn [shr shr_record_of_loc shr_m loc_of_shr_record round_nearest_even Zdigits2].
  rewrite C, Z.sub_diag. cbn [shr shr_record_of_loc shr_m].
  apply Z.leb_le in B. now rewrite B.
Qed.

Lemma ofZ_pos_gen (s : bool) (p : positive) :
  Zpos (digits2_pos p) <= prec ->
  binary_round prec emax s p 0 = S754_finite s (fst (normalForm p)) (snd (normalForm p)).
Proof.
  intro D. unfold binary_round, normalForm.
  assert (F : fexp prec emax (Zpos (digits2_pos p) + 0) = Zpos (digits2_pos p) - prec).
  { unfold fexp, emin, prec, emax in *. lia. }
  rewrite F. unfold shl_align.
  destruct (Zpos (digits2_pos p) - prec - 0) as [|k|k] eqn:K.
  - cbn [fst snd]. apply binary_round_aux_canonical.
    + unfold canonical_mantissa. apply Z.eqb_eq. rewrite F. lia.
    + unfold prec, emax. lia.
  - lia.
  - cbn [fst snd]. apply binary_round_aux_canonical.
    + unfold canonical_mantissa. apply Z.eqb_eq. rewrite iter_xO_digits.
      unfold fexp, emin, prec, emax in *. lia.
    + unfold prec, emax in *. lia.
Qed.

Lemma normalForm_spec (p : positive) :
  Zpos (digits2_pos p) <= prec ->
  snd (normalForm p) = Zpos (digits2_pos p) - prec
  /\ Zpos (fst (normalForm p)) = Zpos p * 2 ^ (prec - Zpos (digits2_pos p)).
Proof.
  intro D. unfold normalForm, shl_align.
  destruct (Zpos (digits2_pos p) - prec - 0) as [|k|k] eqn:K; cbn [fst snd].
  - split; [lia|]. replace (prec - Zpos (digits2_pos p)) with 0 by lia. lia.
  - lia.
  - split; [reflexivity|]. rewrite iter_xO_value. f_equal. f_equal. lia.
Qed.

Lemma normalForm_compare (p1 p2 : positive) :
  Zpos (digits2_pos p1) <= prec ->
  Zpos (digits2_pos p2) <= prec ->
  match snd (normalForm p1) ?= snd (normalForm p2) with
  | Lt => Lt
  | Gt => Gt
  | Eq => Pos.compare_cont Eq (fst (normalForm p1)) (fst (normalForm p2))
  end = (p1 ?= p2)%positive.
Proof.
  intros D1 D2.
  destruct (normalForm_spec p1 D1) as [E1 M1].
  destruct (normalForm_spec p2 D2) as [E2 M2].
  pose proof (digits2_pos_bounds p1) as [L1 U1].
  pose proof (digits2_pos_bounds p2) as [L2 U2].
  rewrite E1, E2.
  destruct (Z.compare_spec (Zpos (digits2_pos p1) - prec) (Zpos (digits2_pos p2) - prec)) as [E|L|G].
  - assert (Ed : Zpos (digits2_pos p1) = Zpos (digits2_pos p2)) by lia.
    change (Pos.compare_cont Eq ?a ?b) with (Pos.compare a b).
    change ((Z.pos (fst (normalForm p1)) ?= Z.pos (fst (normalForm p2)))
            = (Z.pos p1 ?= Z.pos p2)).
    rewrite M1, M2, Ed.
    symmetry. apply Zmult_compare_compat_r.
    apply Z.lt_gt, Z.pow_pos_nonneg; lia.
  - symmetry. apply Pos.compare_lt_iff.
    assert (2 ^ Zpos (digits2_pos p1) <= 2 ^ (Zpos (digits2_pos p2) - 1)).
    { apply Z.pow_le_mono_r; lia. }
    lia.
  - symmetry. apply Pos.compare_gt_iff.
    assert (2 ^ Zpos (digits2_pos p2) <= 2 ^ (Zpos (digits2_pos p1) - 1)).
    { apply Z.pow_le_mono_r; lia. }
    lia.
Qed.

Lemma digits_of_small (p : positive) :
  Zpos p < 2 ^ prec -> Zpos (digits2_pos p) <= prec.
Proof.
  intro B. pose proof (digits2_pos_bounds p) as [L _].
  destruct (Z_le_gt_dec (Zpos (digits2_pos p)) prec) as [H|H]; [exact H|].
  exfalso. assert (2 ^ prec <= 2 ^ (Zpos (digits2_pos p) - 1)).
  { apply Z.pow_le_mono_r; lia. }
  lia.
Qed.

Lemma ofZ_compare (x y : Z) :
  Z.abs x < 2 ^ prec -> Z.abs y < 2 ^ prec ->
  SFcompare (ofZ x) (ofZ y) = Some (x ?= y).
Proof.
  intros Bx By. unfold ofZ, binary_normalize.
  destruct x as [|p|p], y as [|q|q];
    try rewrite (ofZ_pos_gen _ p) by (apply digits_of_small; exact Bx);
    try rewrite (ofZ_pos_gen _ q) by (apply digits_of_small; exact By);
    cbn [SFcompare]; try reflexivity.
  - rewrite normalForm_compare by (apply digits_of_small; assumption).
    reflexivity.
  - f_equal.
    pose proof (normalForm_compare p q (digits_of_small p Bx) (digits_of_small q By)) as H.
    cbn [Z.compare]. rewrite <- H.
    destruct (snd (normalForm p) ?= snd (normalForm q)); reflexivity.
Qed.

Lemma ofZ_lt (x y : Z) :
  Z.abs x < 2 ^ prec -> Z.abs y < 2 ^ prec ->
  JsNum.lt (ofZ x) (ofZ y) = (x <? y).
Proof.
  intros Bx By. unfold JsNum.lt, SFltb. rewrite ofZ_compare by assumption.
  unfold Z.ltb. destruct (x ?= y); reflexivity.
Qed.

Lemma ofZ_gt (x y : Z) :
  Z.abs x < 2 ^ prec -> Z.abs y < 2 ^ prec ->
  JsNum.gt (ofZ x) (ofZ y) = (y <? x).
Proof. intros Bx By. unfold JsNum.gt. now apply ofZ_lt. Qed.

Lemma truncZ_normalForm (s : bool) (p : positive) :
  Zpos (digits2_pos p) <= prec ->
  truncZ s (fst (normalForm p)) (snd (normalForm p))
  = if s then Zneg p else Zpos p.
Proof.
  intro D. destruct (normalForm_spec p D) as [E M].
  unfold truncZ.
  assert (A : match snd (normalForm p) with
              | Zneg k => Z.shiftr (Zpos (fst (normalForm p))) (Zpos k)
              | _ => Z.shiftl (Zpos (fst (normalForm p))) (snd (normalForm p))
              end = Zpos p).
  { rewrite M. destruct (snd (normalForm p)) as [|k|k] eqn:K.
    - rewrite Z.shiftl_0_r. replace (prec - Zpos (digits2_pos p)) with 0 by lia. lia.
    - lia.
    - rewrite Z.shiftr_div_pow2 by lia.
      replace (prec - Zpos (digits2_pos p)) with (Zpos k) by lia.
      apply Z.div_mul. apply Z.pow_nonzero; lia. }
  rewrite A. destruct s; reflexivity.
Qed.

Lemma TimeClip_ofZ (t : Z) :
  Z.abs t <= 8640000000000000 -> TimeClip (ofZ t) = ofZ t.
Proof.
  intro B.
  assert (S : Z.abs t < 2 ^ prec) by (unfold prec; lia).
  destruct t as [|p|p]; [reflexivity| |];
    unfold ofZ, binary_normalize;
    rewrite ofZ_pos_gen by (apply digits_of_small; exact S);
    unfold TimeClip;
    rewrite truncZ_normalForm by (apply digits_of_small; exact S);
    cbn [Z.abs] in *;
    (destruct (Z.gtb_spec (Zpos p) 8640000000000000) as [G|_]; [lia|]);
    cbn [binary_normalize]; apply ofZ_pos_gen, digits_of_small; exact S.
Qed.

Lemma digitVal_bound (radix : Z) (c : ascii) (d : Z) :
  digitVal radix c = Some d -> 0 <= d < radix.
Proof.
  unfold digitVal.
  destruct ((48 <=? code c) && (code c <=? 57)) eqn:A.
  { destruct (Z.ltb_spec (code c - 48) radix); [|discriminate].
    intro Hv; injection Hv as <-. lia. }
  destruct ((97 <=? code c) && (code c <=? 122)) eqn:B.
  { destruct (Z.ltb_spec (code c - 87) radix); [|discriminate].
    intro Hv; injection Hv as <-. lia. }
  destruct ((65 <=? code c) && (code c <=? 90)) eqn:C; [|discriminate].
  destruct (Z.ltb_spec (code c - 55) radix); [|discriminate].
  intro Hv; injection Hv as <-. lia.
Qed.

Lemma takeDigits_bound (s : string) :
  forall (acc : Z) (n : nat) (v : Z) (k : nat) (r : string),
    takeDigits 10 s acc n = (v, k, r) ->
    0 <= acc < 10 ^ Z.of_nat n ->
    0 <= v < 10 ^ Z.of_nat k.
Proof.
  induction s as [|c s IH]; intros acc n v k r H B.
  - cbn in H. injection H as <- <- _. exact B.
  - cbn [takeDigits] in H. destruct (digitVal 10 c) as [d|] eqn:D.
    + apply (IH _ _ _ _ _ H). apply digitVal_bound in D.
      rewrite Nat2Z.inj_succ, Z.pow_succ_r by lia. lia.
    + injection H as <- <- _. exact B.
Qed.

Lemma fixedDigits_bound (n : nat) (s : string) (v : Z) (r : string) :
  fixedDigits n s = Some (v, r) -> 0 <= v < 10 ^ Z.of_nat n.
Proof.
  unfold fixedDigits.
  destruct (takeDigits 10 (substring 0 n s) 0 0) as [[v' k] r'] eqn:T.
  destruct (Nat.eqb_spec k n) as [->|]; [|discriminate].
  destruct (String.eqb r' ""); [|discriminate].
  cbn [andb]. intro Hv; injection Hv as <- _.
  apply (takeDigits_bound _ _ _ _ _ _ T). cbn. lia.
Qed.

Lemma daysBeforeMonth_bound (y m : Z) :
  1 <= m <= 12 -> 0 <= daysBeforeMonth y m <= 335.
Proof.
  intro B. unfold daysBeforeMonth, monthLengths.
  assert (C : m = 1 \/ m = 2 \/ m = 3 \/ m = 4 \/ m = 5 \/ m = 6 \/ m = 7
              \/ m = 8 \/ m = 9 \/ m = 10 \/ m = 11 \/ m = 12) by lia.
  destruct (isLeap y);
    decompose [or] C; subst m;
    match goal with
    | |- 0 <= ?x <= _ => let v := eval vm_compute in x in change x with v
    end; lia.
Qed.

Lemma daysInMonth_bound (y m : Z) : daysInMonth y m <= 31.
Proof.
  unfold daysInMonth, monthLengths.
  destruct (isLeap y);
    generalize (Z.to_nat (m - 1)); intro n;
    do 12 (destruct n as [|n]; [cbn; lia|]); destruct n; cbn; lia.
Qed.

Lemma isoDateOnly_bound (s : string) (t : Z) :
  isoDateOnly s = Some t -> Z.abs t <= 8640000000000000.
Proof.
  unfold isoDateOnly.
  destruct (fixedDigits 4 s) as [[y r1]|] eqn:Fy; [|discriminate].
  destruct (expectDash r1) as [r1'|]; [|discriminate].
  destruct (fixedDigits 2 r1') as [[m r2]|] eqn:Fm; [|discriminate].
  destruct (expectDash r2) as [r2'|]; [|discriminate].
  destruct (fixedDigits 2 r2') as [[d r3]|] eqn:Fd; [|discriminate].
  destruct (String.eqb r3 ""); [|discriminate]. cbn [andb].
  destruct (Z.leb_spec 1 m); [|discriminate].
  destruct (Z.leb_spec m 12); [|discriminate].
  destruct (Z.leb_spec 1 d); [|discriminate].
  destruct (Z.leb_spec d (daysInMonth y m)); [|discriminate].
  cbn [andb]. intro Hv; injection Hv as <-.
  apply fixedDigits_bound in Fy. change (10 ^ Z.of_nat 4) with 10000 in Fy.
  pose proof (daysBeforeMonth_bound y m ltac:(lia)) as Bm.
  pose proof (daysInMonth_bound y m) as Bd.
  unfold MakeDay, DayFromYear, msPerDay.
  Z.div_mod_to_equations. lia.
Qed.

(* ================================================================== *)
(** ** The filter keeps exactly the submissions that pass every clause *)
(* ================================================================== *)

Section FilterTheorems.

Variable hostParse : string -> number.

(** C1. Filter AND-semantics: the filter writes no response and returns
    a list in which a submission appears exactly when it is one of the
    given submissions and satisfies every clause of the list.  It holds
    for every clause list, the non-empty ones that the handler lets
    through included. *)
Theorem C1_filter_and_semantics (subs : list SubmissionType)
  (cs : list FilterClauseType) (r : Response) :
  exists kept,
    filteredSubmissions hostParse subs cs r = (Ok kept, r)
    /\ forall s,
         In s kept
         <-> In s subs /\ forall c, In c cs -> satisfies hostParse s c.
Proof.
  eexists. split; [apply filteredSubmissions_pure|].
  intro s. rewrite filter_In, forallb_forall.
  split; intros [Hs Hc]; (split; [exact Hs|]); intros c Hin.
  - apply clausePasses_satisfies, Hc, Hin.
  - apply clausePasses_satisfies, Hc, Hin.
Qed.

(** C8. Missing-field exclusion: a clause whose target identifier matches
    no question-answer of a submission comes to false for it, and a
    filter run with that clause in its list leaves the submission out. *)
Theorem C8_missing_field_excludes (subs : list SubmissionType)
  (cs : list FilterClauseType) (s : SubmissionType) (c : FilterClauseType)
  (r : Response) :
  In c cs ->
  (forall q, In q (questions s) -> q_id q <> c_id c) ->
  clauseCallback hostParse s c r = (Ok (CbBool false), r)
  /\ exists kept,
       filteredSubmissions hostParse subs cs r = (Ok kept, r)
       /\ ~ In s kept.
Proof.
  intros Hc Habs.
  assert (P : clausePasses hostParse s c = false).
  { unfold clausePasses. now rewrite findQuestion_absent. }
  split.
  - rewrite clauseCallback_pure. now rewrite P.
  - eexists. split; [apply filteredSubmissions_pure|].
    rewrite filter_In, forallb_forall. intros [_ H].
    specialize (H c Hc). congruence.
Qed.

(** C4. Equals and does-not-equal look at the raw values only: on a found
    question-answer, [equals] comes to the strict equality of the stored
    value and the clause value and [does_not_equal] to its negation,
    whatever the type tag of the question and the host's date parser;
    strict equality never holds between a number and a string, so the
    stored number 5 is not equal to the clause value "5" although both
    coerce to the same number. *)
Theorem C4_equals_is_strict (q : QuestionType) (id : string) (v : JsValue)
  (r : Response) :
  evalClause hostParse q
    {| c_id := id; c_condition := "equals"; c_value := v |} r
  = (Ok (CbBool (strictEquals (q_value q) v)), r)
  /\ evalClause hostParse q
       {| c_id := id; c_condition := "does_not_equal"; c_value := v |} r
     = (Ok (CbBool (negb (strictEquals (q_value q) v))), r)
  /\ (forall n s, strictEquals (VNum n) (VStr s) = false
                  /\ strictEquals (VStr s) (VNum n) = false)
  /\ (forall a b, strictEquals (VStr a) (VStr b) = true <-> a = b)
  /\ strictEquals (VNum (ofZ 5)) (VStr "5") = false
  /\ JsNum.strictEq (Number_ (VNum (ofZ 5))) (Number_ (VStr "5")) = true.
Proof.
  repeat split; try apply evalClause_pure; try reflexivity.
  - apply String.eqb_eq.
  - apply String.eqb_eq.
Qed.

End FilterTheorems.

(** A run of C8: a submission that answers only ["q1"], filtered by a
    clause on ["q2"]. *)
Lemma C8_missing_field_excludes_witness :
  let s := sampleSubmission "s1" [sampleQuestion "q1" "ShortAnswer" (VStr "a")] in
  let c := sampleClause "q2" "equals" (VStr "a") in
  In c [c]
  /\ (forall q, In q (questions s) -> q_id q <> c_id c)
  /\ clauseCallback plainHost s c freshResponse = (Ok (CbBool false), freshResponse)
  /\ exists kept,
       filteredSubmissions plainHost [s] [c] freshResponse
       = (Ok kept, freshResponse)
       /\ ~ In s kept.
Proof.
  intros s c.
  assert (H1 : In c [c]) by (left; reflexivity).
  assert (H2 : forall q, In q (questions s) -> q_id q <> c_id c).
  { intros q [<-|[]]. discriminate. }
  split; [exact H1|]. split; [exact H2|].
  exact (C8_missing_field_excludes plainHost [s] [c] s c freshResponse H1 H2).
Defined.

(* ================================================================== *)
(** ** Ordering clauses and NaN *)
(* ================================================================== *)

Lemma lt_NaN (x : number) : JsNum.lt NaN x = false /\ JsNum.lt x NaN = false.
Proof. split; destruct x as [s|s| |s m e]; reflexivity. Qed.

Lemma compare_with_NaN (x y : number) :
  isNaN x = true \/ isNaN y = true ->
  JsNum.gt x y = false /\ JsNum.lt x y = false.
Proof.
  unfold JsNum.gt.
  intros [H|H]; [destruct x | destruct y]; try discriminate H;
    split; apply lt_NaN.
Qed.

Section OrderingTheorems.

Variable hostParse : string -> number.

(** Two date-only strings, coerced for a date question, are the Number
    values of their epoch milliseconds, and these compare as the
    integers do. *)
Lemma date_operands_compare (a b : string) (ta tb : Z) :
  isoDateOnly a = Some ta ->
  isoDateOnly b = Some tb ->
  DateGetTime hostParse (VStr a) = ofZ ta
  /\ DateGetTime hostParse (VStr b) = ofZ tb
  /\ JsNum.gt (ofZ ta) (ofZ tb) = (tb <? ta)
  /\ JsNum.lt (ofZ ta) (ofZ tb) = (ta <? tb).
Proof.
  intros Ha Hb.
  pose proof (isoDateOnly_bound a ta Ha) as Ba.
  pose proof (isoDateOnly_bound b tb Hb) as Bb.
  assert (Sa : Z.abs ta < 2 ^ prec) by (unfold prec; lia).
  assert (Sb : Z.abs tb < 2 ^ prec) by (unfold prec; lia).
  unfold DateGetTime, DateParse. rewrite Ha, Hb.
  repeat split.
  - now apply TimeClip_ofZ.
  - now apply TimeClip_ofZ.
  - now apply ofZ_gt.
  - now apply ofZ_lt.
Qed.

(** C5. On a found question-answer, [greater_than] and [less_than] compare
    the two coerced operands as numbers, where the coercion of both the
    stored value and the clause value is the epoch-millisecond time value
    when the type tag is ["DatePicker"] and [Number(..)] otherwise.  For
    two date-only strings the outcome is the order of their epoch
    milliseconds; so a date answer "2024-01-01" passes [greater_than]
    "2023-01-01" and fails with the two values exchanged. *)
Theorem C5_ordering_compares_coerced (q : QuestionType) (id : string)
  (v : JsValue) (r : Response) :
  let fv := if String.eqb (q_type q) "DatePicker"
            then DateGetTime hostParse (q_value q)
            else Number_ (q_value q) in
  let fc := if String.eqb (q_type q) "DatePicker"
            then DateGetTime hostParse v
            else Number_ v in
  evalClause hostParse q
    {| c_id := id; c_condition := "greater_than"; c_value := v |} r
  = (Ok (CbBool (JsNum.gt fv fc)), r)
  /\ evalClause hostParse q
       {| c_id := id; c_condition := "less_than"; c_value := v |} r
     = (Ok (CbBool (JsNum.lt fv fc)), r)
  /\ (forall a b ta tb,
        q_type q = "DatePicker" -> q_value q = VStr a -> v = VStr b ->
        isoDateOnly a = Some ta -> isoDateOnly b = Some tb ->
        fv = ofZ ta /\ fc = ofZ tb
        /\ JsNum.gt fv fc = (tb <? ta) /\ JsNum.lt fv fc = (ta <? tb))
  /\ evalClause hostParse
       (sampleQuestion "q1" "DatePicker" (VStr "2024-01-01"))
       (sampleClause "q1" "greater_than" (VStr "2023-01-01")) r
     = (Ok (CbBool true), r)
  /\ evalClause hostParse
       (sampleQuestion "q1" "DatePicker" (VStr "2023-01-01"))
       (sampleClause "q1" "greater_than" (VStr "2024-01-01")) r
     = (Ok (CbBool false), r).
Proof.
  intros fv fc. split; [|split; [|split; [|split]]].
  - apply evalClause_pure.
  - apply evalClause_pure.
  - intros a b ta tb Ht Ha Hb Ia Ib. subst fv fc.
    rewrite Ht, Ha, Hb. cbn [String.eqb].
    change (String.eqb "DatePicker" "DatePicker") with true. cbv iota.
    destruct (date_operands_compare a b ta tb Ia Ib) as (E1 & E2 & G & L).
    rewrite E1, E2. auto.
  - reflexivity.
  - reflexivity.
Qed.

(** C9. The two coerced operands are both of type number, so the test of
    line 144 never succeeds: on a found question-answer the callback
    writes no response and hands back a boolean.  When either operand
    coerces to NaN, a [greater_than] or [less_than] clause comes to false,
    and a filter run with that clause in its list leaves the submission
    out without writing any response. *)
Theorem C9_mismatch_branch_unreachable (q : QuestionType)
  (c : FilterClauseType) (r : Response) :
  let fv := coerce hostParse q (q_value q) in
  let fc := coerce hostParse q (c_value c) in
  typeof (VNum fv) = "number" /\ typeof (VNum fc) = "number"
  /\ (exists b, evalClause hostParse q c r = (Ok (CbBool b), r))
  /\ (isNaN fv = true \/ isNaN fc = true ->
      c_condition c = "greater_than" \/ c_condition c = "less_than" ->
      evalClause hostParse q c r = (Ok (CbBool false), r)
      /\ forall s subs cs,
           findQuestion s c = Some q -> In c cs ->
           exists kept,
             filteredSubmissions hostParse subs cs r = (Ok kept, r)
             /\ ~ In s kept).
Proof.
  intros fv fc. split; [reflexivity|]. split; [reflexivity|]. split.
  - eexists. apply evalClause_pure.
  - intros Hnan Hcond.
    destruct (compare_with_NaN fv fc Hnan) as [G L].
    assert (S : switchCondition q c fv fc = false).
    { unfold switchCondition.
      destruct Hcond as [E|E]; rewrite E; cbn; assumption. }
    split.
    + rewrite evalClause_pure. fold fv fc. now rewrite S.
    + intros s subs cs F Hin. eexists.
      split; [apply filteredSubmissions_pure|].
      rewrite filter_In, forallb_forall. intros [_ H].
      specialize (H c Hin). unfold clausePasses in H. rewrite F in H.
      fold fv fc in H. congruence.
Qed.

End OrderingTheorems.

(* ================================================================== *)
(** ** Pagination *)
(* ================================================================== *)

Lemma windowFrom_firstn_skipn {A : Type} (data : list A) :
  forall i lo hi,
    windowFrom i data lo hi
    = firstn (Z.to_nat (hi - Z.max lo i)) (skipn (Z.to_nat (lo - i)) data).
Proof.
  induction data as [|x rest IH]; intros i lo hi.
  - cbn [windowFrom]. now rewrite skipn_nil, firstn_nil.
  - cbn [windowFrom]. rewrite IH.
    destruct (Z.leb_spec lo i) as [Hlo|Hlo]; cbn [andb].
    + destruct (Z.ltb_spec i hi) as [Hhi|Hhi].
      * replace (Z.to_nat (lo - i)) with O by lia.
        replace (Z.to_nat (lo - (i + 1))) with O by lia.
        cbn [skipn].
        replace (Z.to_nat (hi - Z.max lo i))
          with (S (Z.to_nat (hi - Z.max lo (i + 1)))) by lia.
        reflexivity.
      * replace (Z.to_nat (hi - Z.max lo (i + 1))) with O by lia.
        replace (Z.to_nat (hi - Z.max lo i)) with O by lia.
        reflexivity.
    + replace (Z.to_nat (lo - i)) with (S (Z.to_nat (lo - (i + 1)))) by lia.
      cbn [skipn]. do 2 f_equal. lia.
Qed.

Lemma slice_from_front {A : Type} (data : list A) (o l : Z) :
  0 <= o -> 0 < l ->
  slice data o (o + l) = firstn (Z.to_nat l) (skipn (Z.to_nat o) data).
Proof.
  intros Ho Hl. unfold slice, relativeIndex.
  set (n := Z.of_nat (List.length data)).
  destruct (Z.ltb_spec o 0) as [?|_]; [lia|].
  destruct (Z.ltb_spec (o + l) 0) as [?|_]; [lia|].
  destruct (Z_lt_le_dec o n) as [Lt|Ge].
  - rewrite (Z.min_l o n) by lia.
    destruct (Z_le_gt_dec (o + l) n) as [Le|Gt].
    + rewrite Z.min_l by lia. f_equal. lia.
    + rewrite Z.min_r by lia.
      rewrite !firstn_all2; [reflexivity| |]; rewrite length_skipn; subst n; lia.
  - rewrite (Z.min_r o n), Z.min_r by lia.
    rewrite Z.sub_diag. cbn [Z.to_nat firstn].
    rewrite (skipn_all2 data) by (subst n; lia). now rewrite firstn_nil.
Qed.

Lemma ceilDiv_spec (n l : Z) :
  0 < l -> exists pc, ceilDiv n l = Some pc /\ isCeiling n l pc.
Proof.
  intro Hl. unfold ceilDiv, isCeiling.
  destruct (Z.eqb_spec l 0) as [?|_]; [lia|].
  eexists. split; [reflexivity|].
  pose proof (Z.div_mod (- n) l ltac:(lia)) as D.
  pose proof (Z.mod_pos_bound (- n) l Hl) as B.
  nia.
Qed.

(** C2, as the code has it.  For a non-negative offset [O] and a positive
    limit [L], the page is the elements [O, O+L) of the filtered list (empty
    when [O >= N]), the page count is the ceiling of [N / L], and
    [totalResponses] is the number of items on the page, [min L (N - O)]
    when the page is not empty, not the full filtered count [N]. *)
Theorem C2_pagination_nonneg_offset (data : list SubmissionType) (L O : Z) :
  0 <= O -> 0 < L ->
  let N := Z.of_nat (List.length data) in
  let page := paginateData data L O in
  responses page = window data O (O + L)
  /\ responses page = firstn (Z.to_nat L) (skipn (Z.to_nat O) data)
  /\ (N <= O -> responses page = [])
  /\ (exists pc, pageCount page = Some pc /\ isCeiling N L pc)
  /\ totalResponses page = Z.of_nat (List.length (responses page))
  /\ totalResponses page = Z.max 0 (Z.min L (N - O)).
Proof.
  intros HO HL N page.
  assert (R : responses page = firstn (Z.to_nat L) (skipn (Z.to_nat O) data)).
  { subst page. unfold paginateData. cbn [responses].
    now apply slice_from_front. }
  split; [|split; [exact R|split; [|split; [|split]]]].
  - rewrite R. unfold window. rewrite windowFrom_firstn_skipn.
    rewrite Z.max_l by lia. do 2 f_equal; lia.
  - intro Hge. rewrite R, skipn_all2 by (subst N; lia). apply firstn_nil.
  - subst page. unfold paginateData. cbn [pageCount]. now apply ceilDiv_spec.
  - reflexivity.
  - change (totalResponses page) with (Z.of_nat (List.length (responses page))).
    rewrite R, length_firstn, length_skipn. subst N. lia.
Qed.

(** A run of C2: three submissions, two per page, from index 1. *)
Lemma C2_pagination_nonneg_offset_witness :
  0 <= 1 /\ 0 < 2
  /\ responses (paginateData [subA; subB; subC] 2 1) = [subB; subC]
  /\ pageCount (paginateData [subA; subB; subC] 2 1) = Some 2
  /\ totalResponses (paginateData [subA; subB; subC] 2 1) = 2.
Proof.
  assert (H0 : 0 <= 1) by lia. assert (H1 : 0 < 2) by lia.
  destruct (C2_pagination_nonneg_offset [subA; subB; subC] 2 1 H0 H1)
    as (_ & R & _ & _ & _ & T).
  split; [exact H0|]. split; [exact H1|].
  split; [exact R|]. split; [reflexivity|exact T].
Defined.

(** C2 fails as it is stated, for every offset: with offset [-1] and limit
    [150] on three submissions the indices of [-1, 149) that exist are
    0, 1 and 2, and the code returns the last submission alone. *)
Lemma C2_counterexample_negative_offset :
  responses (paginateData [subA; subB; subC] 150 (-1)) = [subC]
  /\ window [subA; subB; subC] (-1) (-1 + 150) = [subA; subB; subC]
  /\ responses (paginateData [subA; subB; subC] 150 (-1))
     <> window [subA; subB; subC] (-1) (-1 + 150).
Proof.
  split; [reflexivity|]. split; [reflexivity|].
  cbv. intro H. discriminate H.
Qed.

Lemma paginateNumbers_finite (data : list SubmissionType)
  (limit offset : number) (l o : Z) :
  integralOf limit = Finite l -> integralOf offset = Finite o ->
  paginateNumbers data limit offset = paginateData data l o.
Proof. intros Hl Ho. unfold paginateNumbers. now rewrite Hl, Ho. Qed.

Lemma falsyNumber_integralOf (x : number) (z : Z) :
  integralOf x = Finite z -> z <> 0 -> falsyNumber x = false.
Proof.
  destruct x as [s|[|]| |s m e]; cbn; intros H Hz;
    try discriminate H; try reflexivity.
  injection H as <-. contradiction.
Qed.

Lemma slice_negative_start {A : Type} (data : list A) (o l : Z) :
  o < 0 ->
  let n := Z.of_nat (List.length data) in
  let k := Z.max (n + o) 0 in
  let f := if o + l <? 0 then Z.max (n + o + l) 0 else Z.min (o + l) n in
  slice data o (o + l) = firstn (Z.to_nat (f - k)) (skipn (Z.to_nat k) data)
  /\ (n <= o + l ->
      slice data o (o + l) = skipn (Z.to_nat k) data
      /\ Z.of_nat (List.length (slice data o (o + l))) = Z.min (- o) n)
  /\ (0 <= o + l <= n + o -> slice data o (o + l) = []).
Proof.
  intros Ho n k f.
  assert (E : slice data o (o + l)
              = firstn (Z.to_nat (f - k)) (skipn (Z.to_nat k) data)).
  { unfold slice, relativeIndex. fold n.
    destruct (Z.ltb_spec o 0) as [_|?]; [|lia].
    subst f k. destruct (Z.ltb_spec (o + l) 0); do 3 f_equal; lia. }
  split; [exact E|]. split.
  - intro Hn. rewrite E. subst f.
    destruct (Z.ltb_spec (o + l) 0) as [?|_]; [lia|].
    rewrite firstn_all2 by (rewrite length_skipn; subst k n; lia).
    split; [reflexivity|]. rewrite length_skipn. subst k n. lia.
  - intro Hn. rewrite E. subst f.
    destruct (Z.ltb_spec (o + l) 0) as [?|_]; [lia|].
    replace (Z.to_nat (Z.min (o + l) n - k)) with O by (subst k; lia).
    reflexivity.
Qed.

(* ================================================================== *)
(** ** Runs of the handler *)
(* ================================================================== *)

Section HandlerFacts.

Variable hostParse : string -> number.
Variable axiosGet : string -> string -> UpstreamReply.

Lemma missing_false (a : string) : a <> "" -> missing (Some a) = false.
Proof. intro H. cbn. now apply String.eqb_neq. Qed.

(** With a credential, a form id and at least one clause, and an upstream
    answer of status 200 that carries an array, the handler writes one
    response: status 200 and the page of the filtered submissions. *)
Lemma handler_pages_filtered (req : Request) (a : string)
  (cs : list FilterClauseType) (msg : option string)
  (subs : list SubmissionType) :
  headers_authorization req = Some a -> a <> "" ->
  params_formId req <> "" ->
  body req = BodyArray cs -> cs <> [] ->
  axiosGet (submissionsUrl (params_formId req)) a
  = Resolved 200 msg (Some subs) ->
  handler hostParse axiosGet req
  = {| finalRes :=
         {| statusCode := 200;
            sent := Some (200,
              PageBody
                (paginateNumbers
                   (List.filter
                      (fun s => forallb (clausePasses hostParse s) cs) subs)
                   (queryInt (query_limit req) (ofZ 150))
                   (queryInt (query_offset req) (ofZ 0)))) |};
       upstreamCalls := [(submissionsUrl (params_formId req), a)];
       outcome := Ok tt |}.
Proof.
  intros Ha Hne Hf Hb Hcs Hup. unfold handler.
  rewrite Ha, (missing_false a Hne).
  destruct (String.eqb_spec (params_formId req) "") as [?|_]; [contradiction|].
  rewrite Hb. destruct cs as [|c cs]; [contradiction|].
  rewrite Hup. unfold runM, tryCatch, afterFetch.
  cbn [Z.eqb Pos.eqb negb]. unfold bind at 1.
  rewrite filteredSubmissions_pure. reflexivity.
Qed.

End HandlerFacts.

Section HandlerTheorems.

Variable hostParse : string -> number.
Variable axiosGet : string -> string -> UpstreamReply.

(** C6, as the code has it.  Without an authorization header (absent or
    empty) the handler sets the status to 403 and throws: it makes no
    upstream call and runs no filter, and it writes no body either, so
    no JSON object with an [error] field leaves the handler on this
    path. *)
Theorem C6_missing_credential_throws (req : Request) :
  missing (headers_authorization req) = true ->
  handler hostParse axiosGet req
  = {| finalRes := {| statusCode := 403; sent := None |};
       upstreamCalls := [];
       outcome := Throw (OtherError "Please provide a valid API key.") |}.
Proof. intro H. unfold handler. rewrite H. reflexivity. Qed.

(** C7. Validation short-circuit of line 98: a request that reaches the
    check, that is, one that carries a credential and a form id (the checks
    of lines 76-84 come first), and whose body is an empty array gets
    status 400 with the body [{error: "Please provide atleast 1 filter."}],
    and no upstream call is made. *)
Theorem C7_empty_filters_rejected (req : Request) (a : string) :
  headers_authorization req = Some a -> a <> "" ->
  params_formId req <> "" ->
  body req = BodyArray [] ->
  handler hostParse axiosGet req
  = {| finalRes :=
         {| statusCode := 400;
            sent := Some (400, ErrorBody "Please provide atleast 1 filter.") |};
       upstreamCalls := [];
       outcome := Ok tt |}.
Proof.
  intros Ha Hne Hf Hb. unfold handler.
  rewrite Ha, (missing_false a Hne).
  destruct (String.eqb_spec (params_formId req) "") as [?|_]; [contradiction|].
  rewrite Hb. reflexivity.
Qed.

(** C10, as the code has it.  A negative offset reaches [slice] unclamped
    and counts from the end of the filtered list.  [O] is the integer that
    the number [parseInt(offset)] stands for (the integer written, rounded
    to binary64) and [L] the one of the limit.  The page starts at index
    [max (N + O) 0].  Its end is [O + L], counted from the end as well when
    negative and clamped to [N] otherwise.  So the page is the last
    [min (-O) N] elements when [N <= O + L], and it is empty when
    [0 <= O + L <= N + O]. *)
Theorem C10_negative_offset_counts_from_end (req : Request) (a s : string)
  (cs : list FilterClauseType) (msg : option string)
  (subs : list SubmissionType) (O L : Z) :
  headers_authorization req = Some a -> a <> "" ->
  params_formId req <> "" ->
  body req = BodyArray cs -> cs <> [] ->
  axiosGet (submissionsUrl (params_formId req)) a
  = Resolved 200 msg (Some subs) ->
  query_offset req = Some s ->
  integralOf (parseInt s) = Finite O -> O < 0 ->
  integralOf (queryInt (query_limit req) (ofZ 150)) = Finite L ->
  let kept :=
    List.filter (fun x => forallb (clausePasses hostParse x) cs) subs in
  let N := Z.of_nat (List.length kept) in
  let k := Z.max (N + O) 0 in
  let f := if O + L <? 0 then Z.max (N + O + L) 0 else Z.min (O + L) N in
  exists page,
    sent (finalRes (handler hostParse axiosGet req))
    = Some (200, PageBody page)
    /\ responses page = slice kept O (O + L)
    /\ responses page
       = firstn (Z.to_nat (f - k)) (skipn (Z.to_nat k) kept)
    /\ (N <= O + L ->
        responses page = skipn (Z.to_nat k) kept
        /\ totalResponses page = Z.min (- O) N)
    /\ (0 <= O + L <= N + O -> responses page = []).
Proof.
  intros Ha Hne Hf Hb Hcs Hup Hq Hp HO HL kept N k f.
  rewrite (handler_pages_filtered hostParse axiosGet req a cs msg subs)
    by assumption.
  cbn [finalRes sent]. eexists. split; [reflexivity|].
  assert (Q : queryInt (query_offset req) (ofZ 0) = parseInt s).
  { unfold queryInt. rewrite Hq.
    now rewrite (falsyNumber_integralOf (parseInt s) O Hp) by lia. }
  rewrite Q. fold kept.
  rewrite (paginateNumbers_finite kept _ _ L O HL Hp).
  unfold paginateData. cbn [responses totalResponses].
  destruct (slice_negative_start kept O L HO) as (E & T & Em).
  fold N k f in E, T, Em.
  split; [reflexivity|]. split; [exact E|]. split.
  - intro Hn. destruct (T Hn) as [T1 T2]. split; assumption.
  - exact Em.
Qed.

End HandlerTheorems.

(** C3 on the code: a [greater_than] clause on a stored value ["abc"], whose
    coercion is NaN.  The handler answers 200 with an empty page; no 400
    is written. *)
Theorem C3_nan_coercion_not_reported (hostParse : string -> number) :
  let question := sampleQuestion "q1" "ShortAnswer" (VStr "abc") in
  let clause := sampleClause "q1" "greater_than" (VNum (ofZ 5)) in
  let req := sampleRequest (Some "Bearer key") (BodyArray [clause]) None None in
  isNaN (coerce hostParse question (q_value question)) = true
  /\ handler hostParse (upstreamWith [sampleSubmission "A" [question]]) req
     = {| finalRes :=
            {| statusCode := 200;
               sent := Some (200,
                 PageBody {| responses := [];
                             totalResponses := 0;
                             pageCount := Some 0 |}) |};
          upstreamCalls := [(submissionsUrl "cLZojxk94ous", "Bearer key")];
          outcome := Ok tt |}.
Proof. split; reflexivity. Qed.

(** A run of C6: no authorization header at all. *)
Lemma C6_missing_credential_throws_witness :
  let req := sampleRequest None (BodyArray [yesClause]) None None in
  missing (headers_authorization req) = true
  /\ handler plainHost (upstreamWith [subA]) req
     = {| finalRes := {| statusCode := 403; sent := None |};
          upstreamCalls := [];
          outcome := Throw (OtherError "Please provide a valid API key.") |}.
Proof.
  intro req. split; [reflexivity|].
  exact (C6_missing_credential_throws plainHost (upstreamWith [subA]) req eq_refl).
Defined.

(** A run of C7. *)
Lemma C7_empty_filters_rejected_witness :
  let req := sampleRequest (Some "Bearer key") (BodyArray []) None None in
  headers_authorization req = Some "Bearer key" /\ "Bearer key" <> ""
  /\ params_formId req <> "" /\ body req = BodyArray []
  /\ handler plainHost (upstreamWith [subA]) req
     = {| finalRes :=
            {| statusCode := 400;
               sent := Some (400, ErrorBody "Please provide atleast 1 filter.") |};
          upstreamCalls := [];
          outcome := Ok tt |}.
Proof.
  intro req.
  assert (H1 : "Bearer key" <> "") by discriminate.
  assert (H2 : params_formId req <> "") by discriminate.
  split; [reflexivity|]. split; [exact H1|]. split; [exact H2|].
  split; [reflexivity|].
  exact (C7_empty_filters_rejected plainHost (upstreamWith [subA]) req
           "Bearer key" eq_refl H1 H2 eq_refl).
Defined.

(** A run of C10: offset [-1] and the default limit on three kept
    submissions gives the last one. *)
Lemma C10_negative_offset_counts_from_end_witness :
  let req := sampleRequest (Some "Bearer key") (BodyArray [yesClause])
               None (Some "-1") in
  integralOf (parseInt "-1") = Finite (-1) /\ -1 < 0
  /\ integralOf (queryInt (query_limit req) (ofZ 150)) = Finite 150
  /\ exists page,
       sent (finalRes (handler plainHost (upstreamWith [subA; subB; subC]) req))
       = Some (200, PageBody page)
       /\ responses page = [subC].
Proof.
  intro req.
  assert (H1 : "Bearer key" <> "") by discriminate.
  assert (H2 : params_formId req <> "") by discriminate.
  assert (H3 : [yesClause] <> []) by discriminate.
  assert (H4 : -1 < 0) by lia.
  split; [reflexivity|]. split; [exact H4|]. split; [reflexivity|].
  destruct (C10_negative_offset_counts_from_end plainHost
              (upstreamWith [subA; subB; subC]) req "Bearer key" "-1"
              [yesClause] None [subA; subB; subC] (-1) 150
              eq_refl H1 H2 eq_refl H3 eq_refl eq_refl eq_refl H4 eq_refl)
    as (page & S & R & _).
  exists page. split; [exact S|exact R].
Defined.

(** C10 fails as it is stated, for every negative offset: with offset [-1]
    and limit [2] on three kept submissions the slice runs from index 2 to
    index 1, and the page is empty. *)
Lemma C10_counterexample_empty_page :
  let req := sampleRequest (Some "Bearer key") (BodyArray [yesClause])
               (Some "2") (Some "-1") in
  integralOf (parseInt "-1") = Finite (-1)
  /\ sent (finalRes (handler plainHost (upstreamWith [subA; subB; subC]) req))
     = Some (200, PageBody {| responses := [];
                              totalResponses := 0;
                              pageCount := Some 2 |})
  /\ ~ trailingElements (@nil SubmissionType) [subA; subB; subC].
Proof.
  repeat split. intros [H _]. now apply H.
Qed.

(** A run of C5: the two dates of the example, by their epoch
    milliseconds. *)
Lemma C5_ordering_compares_coerced_witness :
  let q := sampleQuestion "q1" "DatePicker" (VStr "2024-01-01") in
  q_type q = "DatePicker"
  /\ isoDateOnly "2024-01-01" = Some 1704067200000
  /\ isoDateOnly "2023-01-01" = Some 1672531200000
  /\ JsNum.gt (DateGetTime plainHost (q_value q))
              (DateGetTime plainHost (VStr "2023-01-01"))
     = (1672531200000 <? 1704067200000).
Proof.
  intro q.
  destruct (C5_ordering_compares_coerced plainHost q "q1"
              (VStr "2023-01-01") freshResponse) as (_ & _ & H & _).
  destruct (H "2024-01-01" "2023-01-01" 1704067200000 1672531200000
              eq_refl eq_refl eq_refl eq_refl eq_refl) as (_ & _ & G & _).
  split; [reflexivity|]. split; [reflexivity|]. split; [reflexivity|].
  exact G.
Defined.

(** A run of C9: the stored value ["abc"] under a [greater_than] clause. *)
Lemma C9_mismatch_branch_unreachable_witness :
  let q := sampleQuestion "q1" "ShortAnswer" (VStr "abc") in
  let c := sampleClause "q1" "greater_than" (VNum (ofZ 5)) in
  let s := sampleSubmission "A" [q] in
  (isNaN (coerce plainHost q (q_value q)) = true
   \/ isNaN (coerce plainHost q (c_value c)) = true)
  /\ (c_condition c = "greater_than" \/ c_condition c = "less_than")
  /\ evalClause plainHost q c freshResponse = (Ok (CbBool false), freshResponse)
  /\ exists kept,
       filteredSubmissions plainHost [s] [c] freshResponse
       = (Ok kept, freshResponse)
       /\ ~ In s kept.
Proof.
  intros q c s.
  assert (H1 : isNaN (coerce plainHost q (q_value q)) = true
               \/ isNaN (coerce plainHost q (c_value c)) = true)
    by (left; reflexivity).
  assert (H2 : c_condition c = "greater_than" \/ c_condition c = "less_than")
    by (left; reflexivity).
  destruct (C9_mismatch_branch_unreachable plainHost q c freshResponse)
    as (_ & _ & _ & H).
  destruct (H H1 H2) as [E F].
  split; [exact H1|]. split; [exact H2|]. split; [exact E|].
  apply (F s [s] [c]); [reflexivity | left; reflexivity].
Defined.

(* ================================================================== *)
(** ** Further properties of the filter (lines 126-164) *)
(* ================================================================== *)

Lemma filter_Subsequence {A : Type} (f : A -> bool) (l : list A) :
  Subsequence (List.filter f l) l.
Proof.
  induction l as [|x l IH]; [constructor|].
  cbn [List.filter]. destruct (f x); now constructor.
Qed.

Lemma Subsequence_length {A : Type} (k l : list A) :
  Subsequence k l -> (List.length k <= List.length l)%nat.
Proof. induction 1; cbn; lia. Qed.

Lemma filter_filter {A : Type} (f g : A -> bool) (l : list A) :
  List.filter g (List.filter f l) = List.filter (fun x => f x && g x) l.
Proof.
  induction l as [|x l IH]; [reflexivity|].
  cbn [List.filter]. destruct (f x) eqn:F; cbn [List.filter andb].
  - destruct (g x); now rewrite IH.
  - exact IH.
Qed.

Lemma forallb_Permutation {A : Type} (f : A -> bool) (l l' : list A) :
  Permutation l l' -> forallb f l = forallb f l'.
Proof.
  induction 1 as [|x l l' _ IH|x y l|l l' l'' _ IH1 _ IH2]; cbn [forallb].
  - reflexivity.
  - now rewrite IH.
  - destruct (f x), (f y); reflexivity.
  - now rewrite IH1.
Qed.

Lemma SFltb_asym (a b : number) : SFltb a b = true -> SFltb b a = false.
Proof.
  unfold SFltb.
  destruct a as [sa|sa| |sa ma ea], b as [sb|sb| |sb mb eb]; cbn [SFcompare];
    try discriminate; try (destruct sa; discriminate);
    try (destruct sb; discriminate);
    try (destruct sa, sb; discriminate || reflexivity).
  destruct sa, sb; try discriminate; try reflexivity;
    rewrite (Z.compare_antisym ea eb);
    change (Pos.compare_cont Eq mb ma) with (Pos.compare mb ma);
    change (Pos.compare_cont Eq ma mb) with (Pos.compare ma mb);
    rewrite (Pos.compare_antisym ma mb);
    destruct (ea ?= eb); cbn [CompOpp]; try discriminate; try reflexivity;
    destruct (ma ?= mb)%positive; cbn [CompOpp]; discriminate || reflexivity.
Qed.

Lemma filter_none {A : Type} (f : A -> bool) (l : list A) :
  (forall x, In x l -> f x = false) -> List.filter f l = [].
Proof.
  induction l as [|x l IH]; [reflexivity|]. intro H. cbn [List.filter].
  rewrite (H x) by now left. apply IH. intros y Hy. apply H. now right.
Qed.

Section FilterProperties.

Variable hostParse : string -> number.


(** X2. Clause lists compose by AND: filtering by [cs1 ++ cs2] is
    filtering by [cs1] and then filtering what is kept by [cs2]; filtering
    the kept submissions again by the same clauses changes nothing. *)
Theorem filter_composes (subs : list SubmissionType)
  (cs1 cs2 : list FilterClauseType) (r : Response) :
  filteredSubmissions hostParse subs (cs1 ++ cs2)%list r
  = (kept <- filteredSubmissions hostParse subs cs1 ;;
     filteredSubmissions hostParse kept cs2) r
  /\ (kept <- filteredSubmissions hostParse subs cs1 ;;
      filteredSubmissions hostParse kept cs1) r
     = filteredSubmissions hostParse subs cs1 r.
Proof.
  unfold bind. rewrite !filteredSubmissions_pure. split.
  - rewrite filter_filter. do 2 f_equal.
    apply filter_ext. intro s. apply forallb_app.
  - rewrite filter_filter. do 2 f_equal.
    apply filter_ext. intro s. now destruct (forallb _ cs1).
Qed.

(** X3. The order of the clauses does not matter: two clause lists that
    are permutations of each other keep the same submissions. *)
Theorem filter_ignores_clause_order (subs : list SubmissionType)
  (cs cs' : list FilterClauseType) (r : Response) :
  Permutation cs cs' ->
  filteredSubmissions hostParse subs cs r
  = filteredSubmissions hostParse subs cs' r.
Proof.
  intro P. rewrite !filteredSubmissions_pure. do 2 f_equal.
  apply filter_ext. intro s. now apply forallb_Permutation.
Qed.

(** X4. A clause whose condition is none of the four tags falls to the
    [default] branch for every submission: with such a clause in the list
    the filter keeps nothing, and it writes no error. *)
Theorem unknown_condition_keeps_nothing (subs : list SubmissionType)
  (cs : list FilterClauseType) (c : FilterClauseType) (r : Response) :
  In c cs -> ~ knownCondition (c_condition c) ->
  filteredSubmissions hostParse subs cs r = (Ok [], r).
Proof.
  intros Hin Hk. rewrite filteredSubmissions_pure. do 2 f_equal.
  apply filter_none. intros s _.
  destruct (forallb (clausePasses hostParse s) cs) eqn:F; [|reflexivity].
  rewrite forallb_forall in F. specialize (F c Hin).
  unfold clausePasses in F. destruct (findQuestion s c) as [q|]; [|discriminate].
  unfold switchCondition in F. unfold knownCondition in Hk.
  destruct (String.eqb_spec (c_condition c) "equals"); [tauto|].
  destruct (String.eqb_spec (c_condition c) "does_not_equal"); [tauto|].
  destruct (String.eqb_spec (c_condition c) "greater_than"); [tauto|].
  destruct (String.eqb_spec (c_condition c) "less_than"); [tauto|].
  discriminate.
Qed.

(** X5. On a found question-answer exactly one of [equals] and
    [does_not_equal] passes for the same value; a clause list that holds
    both for the same question and value keeps no submission. *)
Theorem equals_and_does_not_equal_exclude (subs : list SubmissionType)
  (q : QuestionType) (id : string) (v : JsValue) (r : Response) :
  let eq := {| c_id := id; c_condition := "equals"; c_value := v |} in
  let ne := {| c_id := id; c_condition := "does_not_equal"; c_value := v |} in
  (exists b, evalClause hostParse q eq r = (Ok (CbBool b), r)
             /\ evalClause hostParse q ne r = (Ok (CbBool (negb b)), r))
  /\ filteredSubmissions hostParse subs [eq; ne] r = (Ok [], r).
Proof.
  intros eq ne. split.
  - exists (strictEquals (q_value q) v). split; apply evalClause_pure.
  - rewrite filteredSubmissions_pure. do 2 f_equal.
    apply filter_none. intros s _. cbn [forallb]. unfold clausePasses.
    change (findQuestion s ne) with (findQuestion s eq).
    destruct (findQuestion s eq) as [q'|]; [|reflexivity].
    unfold switchCondition. cbn.
    now destruct (strictEquals (q_value q') v).
Qed.

(** X6. No question-answer passes both [greater_than] and [less_than] for
    the same value, whatever the two operands coerce to; a clause list that
    holds both for the same question and value keeps no submission. *)
Theorem greater_and_less_exclude (subs : list SubmissionType)
  (q : QuestionType) (id : string) (v : JsValue) (r : Response) :
  let gt := {| c_id := id; c_condition := "greater_than"; c_value := v |} in
  let lt := {| c_id := id; c_condition := "less_than"; c_value := v |} in
  ~ (evalClause hostParse q gt r = (Ok (CbBool true), r)
     /\ evalClause hostParse q lt r = (Ok (CbBool true), r))
  /\ filteredSubmissions hostParse subs [gt; lt] r = (Ok [], r).
Proof.
  intros gt lt. split.
  - rewrite !evalClause_pure. unfold switchCondition. cbn.
    intros [G L]. injection G as G. injection L as L.
    unfold JsNum.gt in G. unfold JsNum.lt in L.
    apply SFltb_asym in G. congruence.
  - rewrite filteredSubmissions_pure. do 2 f_equal.
    apply filter_none. intros s _. cbn [forallb]. unfold clausePasses.
    change (findQuestion s lt) with (findQuestion s gt).
    destruct (findQuestion s gt) as [q'|]; [|reflexivity].
    unfold switchCondition. cbn. unfold JsNum.gt, JsNum.lt.
    destruct (SFltb (coerce hostParse q' v) (coerce hostParse q' (q_value q')))
      eqn:G; [|reflexivity].
    apply SFltb_asym in G. rewrite G. reflexivity.
Qed.

(** X7. With no clause at all the filter keeps every submission: [every]
    is true of the empty list.  This is the case that the handler's check
    of line 98 keeps away from the filter. *)
Theorem no_clause_keeps_all (subs : list SubmissionType) (r : Response) :
  filteredSubmissions hostParse subs [] r = (Ok subs, r).
Proof.
  rewrite filteredSubmissions_pure. do 2 f_equal.
  induction subs as [|s subs IH]; cbn [List.filter forallb] in *;
    [reflexivity | now rewrite IH].
Qed.

(** X8. When several question-answers of a submission carry the clause's
    identifier, the first of them alone decides: the clause comes to what
    it comes to on that question-answer, whatever follows it. *)
Theorem first_answer_decides (s : SubmissionType) (c : FilterClauseType)
  (pre post : list QuestionType) (q : QuestionType) (r : Response) :
  questions s = (pre ++ q :: post)%list ->
  (forall p, In p pre -> q_id p <> c_id c) ->
  q_id q = c_id c ->
  clauseCallback hostParse s c r = evalClause hostParse q c r.
Proof.
  intros Hq Hpre Hid. unfold clauseCallback, findQuestion. rewrite Hq.
  clear Hq. induction pre as [|p pre IH]; cbn [app List.find].
  - rewrite Hid, String.eqb_refl. reflexivity.
  - destruct (String.eqb_spec (q_id p) (c_id c)) as [E|_].
    + exfalso. apply (Hpre p); [now left|exact E].
    + apply IH. intros p' Hp'. apply Hpre. now right.
Qed.

End FilterProperties.

(* ================================================================== *)
(** ** Further properties of [paginateData] (lines 52-67) *)
(* ================================================================== *)

Lemma slice_segment {A : Type} (data : list A) (a b : Z) :
  exists front back, data = (front ++ slice data a b ++ back)%list.
Proof.
  unfold slice.
  set (k := Z.to_nat (relativeIndex (Z.of_nat (List.length data)) a)).
  set (n := Z.to_nat _).
  exists (firstn k data), (skipn n (skipn k data)).
  now rewrite (firstn_skipn n (skipn k data)), (firstn_skipn k data).
Qed.

Lemma paginateNumbers_segment (data : list SubmissionType)
  (limit offset : number) :
  exists front back,
    data = (front ++ responses (paginateNumbers data limit offset)
            ++ back)%list.
Proof.
  unfold paginateNumbers. cbn [responses].
  set (k := Z.to_nat (relativeIndexOf _ (integralOf offset))).
  set (n := Z.to_nat _).
  exists (firstn k data), (skipn n (skipn k data)).
  now rewrite (firstn_skipn n (skipn k data)), (firstn_skipn k data).
Qed.

Lemma firstn_plus {A : Type} (a b : nat) (l : list A) :
  firstn (a + b) l = (firstn a l ++ firstn b (skipn a l))%list.
Proof.
  revert l. induction a as [|a IH]; intro l; [reflexivity|].
  destruct l as [|x l]; cbn [Nat.add firstn skipn app].
  - now rewrite firstn_nil.
  - now rewrite IH.
Qed.

Lemma walkPages_firstn (data : list SubmissionType) (L : Z) (n : nat) :
  0 < L -> walkPages data L n = firstn (n * Z.to_nat L) data.
Proof.
  intro HL. unfold walkPages. induction n as [|n IH]; [reflexivity|].
  rewrite seq_S, map_app, concat_app, IH. cbn [Nat.add map List.concat].
  rewrite app_nil_r. unfold paginateData at 1. cbn [responses].
  rewrite slice_from_front by lia.
  replace (Z.to_nat (Z.of_nat n * L)) with (n * Z.to_nat L)%nat by lia.
  replace (S n * Z.to_nat L)%nat with (n * Z.to_nat L + Z.to_nat L)%nat by lia.
  symmetry. apply firstn_plus.
Qed.

(** X9. Whatever integers the limit and the offset are, the page is one
    contiguous run of the filtered list, in its order, and
    [totalResponses] is its length, between 0 and the size of the
    list. *)
Theorem page_is_contiguous_run (data : list SubmissionType) (L O : Z) :
  let page := paginateData data L O in
  (exists front back,
      data = (front ++ responses page ++ back)%list)
  /\ totalResponses page = Z.of_nat (List.length (responses page))
  /\ 0 <= totalResponses page <= Z.of_nat (List.length data).
Proof.
  intro page.
  destruct (slice_segment data O (O + L)) as (front & back & E).
  split; [now exists front, back|]. split; [reflexivity|].
  change (totalResponses page)
    with (Z.of_nat (List.length (slice data O (O + L)))).
  split; [lia|]. rewrite E at 2. rewrite !length_app. lia.
Qed.

(** X10. With a positive limit [L], a client that asks for the offsets
    [0], [L], [2L], .. up to the page count that the first answer reports
    gets every filtered submission exactly once and in order; asking for
    more pages adds nothing. *)
Theorem pages_tile_the_list (data : list SubmissionType) (L pc : Z)
  (n : nat) :
  0 < L ->
  pageCount (paginateData data L 0) = Some pc ->
  (Z.to_nat pc <= n)%nat ->
  0 <= pc /\ walkPages data L (Z.to_nat pc) = data /\ walkPages data L n = data.
Proof.
  intros HL Hpc Hn.
  destruct (ceilDiv_spec (Z.of_nat (List.length data)) L HL) as (pc' & E & C).
  unfold paginateData in Hpc. cbn [pageCount] in Hpc.
  rewrite E in Hpc. injection Hpc as ->. unfold isCeiling in C.
  assert (P : 0 <= pc) by nia.
  split; [exact P|].
  rewrite !walkPages_firstn by exact HL.
  split; apply firstn_all2; nia.
Qed.

(** X11. With a non-negative offset [O] and a positive limit, the page is
    empty exactly when [O] is at or past the end of the filtered list: no
    page inside the list comes back empty, and none past it has
    content. *)
Theorem page_empty_iff_past_end (data : list SubmissionType) (L O : Z) :
  0 <= O -> 0 < L ->
  (responses (paginateData data L O) = []
   <-> Z.of_nat (List.length data) <= O).
Proof.
  intros HO HL. unfold paginateData. cbn [responses].
  rewrite slice_from_front by assumption.
  split.
  - intro E. apply (f_equal (@List.length _)) in E.
    rewrite length_firstn, length_skipn in E. cbn [List.length] in E. lia.
  - intro H. rewrite skipn_all2 by lia. apply firstn_nil.
Qed.

(** X12. A negative limit is not refused.  With a non-negative offset [O]
    the page count is then zero or negative; the page is empty when
    [O + L >= 0], and otherwise its end counts from the end of the list, so
    that it holds [N + L] items when that is positive. *)
Theorem negative_limit_pages (data : list SubmissionType) (L O : Z) :
  L < 0 -> 0 <= O ->
  let N := Z.of_nat (List.length data) in
  let page := paginateData data L O in
  (exists pc, pageCount page = Some pc /\ pc <= 0)
  /\ (0 <= O + L -> responses page = [])
  /\ (O + L < 0 -> totalResponses page = Z.max 0 (N + L)).
Proof.
  intros HL HO N page. split; [|split].
  - subst page. unfold paginateData, ceilDiv. cbn [pageCount].
    destruct (Z.eqb_spec L 0) as [?|_]; [lia|].
    eexists. split; [reflexivity|]. fold N.
    pose proof (Z.div_mod (- N) L ltac:(lia)) as D.
    pose proof (Z.mod_neg_bound (- N) L HL) as B.
    assert (0 <= N) by (subst N; lia).
    nia.
  - intro H. subst page. unfold paginateData, slice, relativeIndex.
    cbn [responses]. fold N.
    destruct (Z.ltb_spec O 0) as [?|_]; [lia|].
    destruct (Z.ltb_spec (O + L) 0) as [?|_]; [lia|].
    replace (Z.to_nat (Z.min (O + L) N - Z.min O N)) with 0%nat by lia.
    reflexivity.
  - intro H.
    change (totalResponses page)
      with (Z.of_nat (List.length (slice data O (O + L)))).
    unfold slice, relativeIndex. fold N.
    destruct (Z.ltb_spec O 0) as [?|_]; [lia|].
    destruct (Z.ltb_spec (O + L) 0) as [_|?]; [|lia].
    rewrite length_firstn, length_skipn. subst N. lia.
Qed.

(* ================================================================== *)
(** ** Further properties of the handler (lines 69-185) *)
(* ================================================================== *)

(** Rounding never lowers the exponent it is given. *)
Lemma shr_exponent (mrs : shr_record) (e n : Z) : e <= snd (shr mrs e n).
Proof. destruct n; cbn; lia. Qed.

Lemma binary_round_aux_exponent (s s' : bool) (mx ex : Z) (lx : location)
  (m : positive) (e : Z) :
  binary_round_aux prec emax s mx ex lx = S754_finite s' m e -> ex <= e.
Proof.
  unfold binary_round_aux, shr_fexp.
  pose proof (shr_exponent (shr_record_of_loc mx lx) ex
                (fexp prec emax (Zdigits2 mx + ex) - ex)) as H1.
  destruct (shr (shr_record_of_loc mx lx) ex _) as [mrs' e'].
  cbn [snd] in H1.
  set (m1 := round_nearest_even (shr_m mrs') (loc_of_shr_record mrs')).
  pose proof (shr_exponent (shr_record_of_loc m1 loc_Exact) e'
                (fexp prec emax (Zdigits2 m1 + e') - e')) as H2.
  destruct (shr (shr_record_of_loc m1 loc_Exact) e' _) as [mrs'' e''].
  cbn [snd] in H2.
  destruct (shr_m mrs''); try discriminate.
  destruct (e'' <=? emax - prec); [|discriminate].
  intro H. injection H as _ _ <-. lia.
Qed.

(** The Number value of a non-zero integer, when finite, stands for a
    non-zero integer: rounding never takes it below 1 in magnitude. *)
Lemma binary_normalize_nonzero (z : Z) (sz s : bool) (m : positive) (e : Z) :
  binary_normalize prec emax z 0 sz = S754_finite s m e ->
  truncZ s m e <> 0.
Proof.
  assert (G : forall sg p,
             binary_round prec emax sg p 0 = S754_finite s m e ->
             truncZ s m e <> 0).
  { intros sg p H.
    destruct (Z_le_gt_dec (Zpos (digits2_pos p)) prec) as [D|D].
    - rewrite (ofZ_pos_gen sg p D) in H. injection H as <- <- <-.
      rewrite (truncZ_normalForm sg p D). now destruct sg.
    - unfold binary_round in H.
      assert (F : fexp prec emax (Zpos (digits2_pos p) + 0)
                  = Zpos (digits2_pos p) - prec).
      { unfold fexp, emin, prec, emax in *. lia. }
      rewrite F in H. unfold shl_align in H.
      destruct (Zpos (digits2_pos p) - prec - 0) as [|k|k] eqn:K; try lia.
      apply binary_round_aux_exponent in H.
      unfold truncZ. destruct e as [|pe|pe]; try lia.
      + rewrite Z.shiftl_0_r. now destruct s.
      + rewrite Z.shiftl_mul_pow2 by lia.
        assert (0 < 2 ^ Zpos pe) by (apply Z.pow_pos_nonneg; lia).
        destruct s; nia. }
  destruct z as [|p|p]; cbn [binary_normalize]; [discriminate| |]; apply G.
Qed.

(** What is left of a parsed parameter after [|| default] stands for a
    non-zero integer or an infinity. *)
Lemma parseInt_truthy_integral (s : string) :
  falsyNumber (parseInt s) = false ->
  integralOf (parseInt s) <> Finite 0
  /\ integralOf (parseInt s) <> NotNumber.
Proof.
  unfold parseInt.
  destruct (takeSign (skipWhite s)) as [neg t].
  destruct (match t with
            | String "0" (String c r) =>
                if isOneOf c "x" "X" then (16, r) else (10, t)
            | _ => (10, t)
            end) as [radix t'].
  destruct (takeDigits radix t' 0 0) as [[v n] rest].
  destruct n as [|n]; [discriminate|].
  destruct (binary_normalize prec emax (if neg then - v else v) 0 neg)
    as [sz|[|]| |sg m e] eqn:B; cbn; try discriminate; intros _;
    try (split; discriminate).
  split; [|discriminate]. intro H. injection H as H.
  now apply (binary_normalize_nonzero _ _ _ _ _ B).
Qed.

Lemma limit_integral (q : option string) :
  integralOf (queryInt q (ofZ 150)) <> Finite 0
  /\ integralOf (queryInt q (ofZ 150)) <> NotNumber.
Proof.
  unfold queryInt. destruct q as [s|]; [|split; discriminate].
  destruct (falsyNumber (parseInt s)) eqn:F; [split; discriminate|].
  now apply parseInt_truthy_integral.
Qed.

Section HandlerProperties.

Variable hostParse : string -> number.
Variable axiosGet : string -> string -> UpstreamReply.

(** The [try] statement as a whole, on a response not yet written. *)
Lemma try_statement_run (reply : UpstreamReply)
  (cs : list FilterClauseType) (limit offset : number) :
  tryCatch (afterFetch hostParse reply cs limit offset) catchBlock
           freshResponse
  = match reply with
    | Rejected (AxiosError st m) =>
        (Throw (OtherError "Cannot set headers after they are sent to the client"),
         {| statusCode := 500;
            sent := Some (match st with
                          | None | Some 0 => 500
                          | Some s => s
                          end, ErrorBody m) |})
    | Rejected (OtherError _) =>
        (Throw (OtherError "Cannot set headers after they are sent to the client"),
         {| statusCode := 500;
            sent := Some (500, ErrorBody "Internal Server Error") |})
    | Resolved st _ subs =>
        if st =? 200 then
          match subs with
          | None =>
              (Ok tt,
               {| statusCode := 400;
                  sent := Some (400,
                    ErrorBody "Filters must be nested in an array.") |})
          | Some subs =>
              (Ok tt,
               {| statusCode := 200;
                  sent := Some (200,
                    PageBody
                      (paginateNumbers
                         (List.filter
                            (fun s => forallb (clausePasses hostParse s) cs)
                            subs)
                         limit offset)) |})
          end
        else
          (Throw (OtherError "Cannot set headers after they are sent to the client"),
           {| statusCode := 500;
              sent := Some (500, ErrorBody "Internal Server Error") |})
    end.
Proof.
  unfold tryCatch, afterFetch.
  destruct reply as [st msg subs|[st m|m]]; try reflexivity.
  destruct (st =? 200); cbn [negb]; [|reflexivity].
  destruct subs as [subs|]; [|reflexivity].
  unfold bind at 1. rewrite filteredSubmissions_pure. reflexivity.
Qed.

(** The handler past its four checks. *)
Lemma handler_valid_run (req : Request) (a : string)
  (cs : list FilterClauseType) :
  validRequest req a cs ->
  handler hostParse axiosGet req
  = runM [(submissionsUrl (params_formId req), a)]
         (tryCatch
            (afterFetch hostParse
               (axiosGet (submissionsUrl (params_formId req)) a) cs
               (queryInt (query_limit req) (ofZ 150))
               (queryInt (query_offset req) (ofZ 0)))
            catchBlock).
Proof.
  intros (Ha & Hne & Hf & Hb & Hcs). unfold handler.
  rewrite Ha, (missing_false a Hne).
  destruct (String.eqb_spec (params_formId req) "") as [?|_]; [contradiction|].
  rewrite Hb. destruct cs as [|c cs]; [contradiction|]. reflexivity.
Qed.

(** Every request is missing a credential, or a form id, or a well-formed
    body, or it is valid. *)
Lemma request_cases (req : Request) :
  missing (headers_authorization req) = true
  \/ (exists a, headers_authorization req = Some a /\ a <> ""
                /\ (params_formId req = ""
                    \/ (params_formId req <> ""
                        /\ (body req = BodyOther \/ body req = BodyArray []
                            \/ exists cs, validRequest req a cs)))).
Proof.
  destruct (headers_authorization req) as [a|] eqn:Ha; [|now left].
  cbn [missing]. destruct (String.eqb_spec a "") as [E|N]; [now left|].
  right. exists a. split; [reflexivity|]. split; [exact N|].
  destruct (String.eqb_spec (params_formId req) "") as [E|Nf]; [now left|].
  right. split; [exact Nf|].
  destruct (body req) as [[|c cs]|] eqn:Hb; [right; now left| |now left].
  right. right. exists (c :: cs). unfold validRequest.
  repeat split; try assumption. discriminate.
Qed.

(** X13. With a credential and a form id, a body that is not a JSON array
    gets status 400 and the body
    [{error: "Invalid filter clauses - must be an array"}]; no upstream
    call is made and the handler ends normally. *)
Theorem non_array_body_rejected (req : Request) (a : string) :
  headers_authorization req = Some a -> a <> "" ->
  params_formId req <> "" ->
  body req = BodyOther ->
  handler hostParse axiosGet req
  = {| finalRes :=
         {| statusCode := 400;
            sent := Some (400,
              ErrorBody "Invalid filter clauses - must be an array") |};
       upstreamCalls := [];
       outcome := Ok tt |}.
Proof.
  intros Ha Hne Hf Hb. unfold handler.
  rewrite Ha, (missing_false a Hne).
  destruct (String.eqb_spec (params_formId req) "") as [?|_]; [contradiction|].
  rewrite Hb. reflexivity.
Qed.

(** X14. With a credential but an empty form id the handler sets the
    status to 400 and throws ["Please provide a valid form ID."]: it
    writes no response and makes no upstream call, whatever the body. *)
Theorem missing_form_id_throws (req : Request) (a : string) :
  headers_authorization req = Some a -> a <> "" ->
  params_formId req = "" ->
  handler hostParse axiosGet req
  = {| finalRes := {| statusCode := 400; sent := None |};
       upstreamCalls := [];
       outcome := Throw (OtherError "Please provide a valid form ID.") |}.
Proof.
  intros Ha Hne Hf. unfold handler.
  rewrite Ha, (missing_false a Hne), Hf. reflexivity.
Qed.

(** X15. The handler calls the upstream at most once, and exactly for the
    requests that pass the four checks: the call goes to the submissions
    URL of the form id and carries the request's authorization header
    unchanged; every other request is settled without any call. *)
Theorem upstream_called_iff_valid (req : Request) :
  (forall a cs,
      validRequest req a cs ->
      upstreamCalls (handler hostParse axiosGet req)
      = [("https://api.fillout.com/v1/api/forms/" ++ params_formId req
          ++ "/submissions", a)])
  /\ ((forall a cs, ~ validRequest req a cs) ->
      upstreamCalls (handler hostParse axiosGet req) = []).
Proof.
  split.
  - intros a cs V. rewrite (handler_valid_run req a cs V).
    unfold runM. now destruct (tryCatch _ _ _).
  - intro NV. destruct (request_cases req) as [M|(a & Ha & Hne & C)].
    + unfold handler. now rewrite M.
    + destruct C as [Hf|(Hf & [Hb|[Hb|(cs & V)]])].
      * unfold handler. now rewrite Ha, (missing_false a Hne), Hf.
      * unfold handler. rewrite Ha, (missing_false a Hne).
        destruct (String.eqb_spec (params_formId req) "") as [?|_];
          [contradiction|]. now rewrite Hb.
      * unfold handler. rewrite Ha, (missing_false a Hne).
        destruct (String.eqb_spec (params_formId req) "") as [?|_];
          [contradiction|]. now rewrite Hb.
      * exfalso. exact (NV a cs V).
Qed.

(** X16. The handler writes a response exactly when the request carries a
    credential and a form id.  Past these two checks every path, the
    upstream failures included, writes one; the two checks themselves
    leave the request without any response. *)
Theorem response_written_iff_identified (req : Request) :
  sent (finalRes (handler hostParse axiosGet req)) = None
  <-> missing (headers_authorization req) = true \/ params_formId req = "".
Proof.
  destruct (request_cases req) as [M|(a & Ha & Hne & C)].
  - unfold handler. rewrite M. cbn. tauto.
  - assert (Hm : missing (headers_authorization req) = false)
      by (rewrite Ha; now apply missing_false).
    destruct C as [Hf|(Hf & C)].
    + unfold handler. rewrite Hm, Hf. cbn. tauto.
    + assert (S : sent (finalRes (handler hostParse axiosGet req)) <> None).
      { destruct C as [Hb|[Hb|(cs & V)]].
        - unfold handler. rewrite Hm.
          destruct (String.eqb_spec (params_formId req) "") as [?|_];
            [contradiction|]. rewrite Hb. discriminate.
        - unfold handler. rewrite Hm.
          destruct (String.eqb_spec (params_formId req) "") as [?|_];
            [contradiction|]. rewrite Hb. discriminate.
        - rewrite (handler_valid_run req a cs V). unfold runM.
          rewrite try_statement_run.
          destruct (axiosGet _ _) as [st msg [subs|]|[st m|m]];
            try destruct (st =? 200); discriminate. }
      split; [contradiction|]. intros [E|E]; congruence.
Qed.

(** X17. When the upstream call is rejected with an Axios error, the
    handler answers with the status of the upstream response (500 when
    there is none, or when it is 0) and the Axios message as [error]; the
    second [res.json] of the [catch] block then throws, so the handler's
    promise is rejected although the client has its answer. *)
Theorem axios_error_forwarded (req : Request) (a : string)
  (cs : list FilterClauseType) (st : option Z) (m : string) :
  validRequest req a cs ->
  axiosGet (submissionsUrl (params_formId req)) a
  = Rejected (AxiosError st m) ->
  handler hostParse axiosGet req
  = {| finalRes :=
         {| statusCode := 500;
            sent := Some (match st with
                          | None | Some 0 => 500
                          | Some s => s
                          end, ErrorBody m) |};
       upstreamCalls := [(submissionsUrl (params_formId req), a)];
       outcome :=
         Throw (OtherError "Cannot set headers after they are sent to the client") |}.
Proof.
  intros V Hup. rewrite (handler_valid_run req a cs V). unfold runM.
  rewrite try_statement_run, Hup. reflexivity.
Qed.

(** X18. When the upstream call resolves with a status other than 200, the
    handler answers 500 with [{error: "Internal Server Error"}]: neither
    the upstream status nor its message reaches the client, and the
    handler's promise is rejected by the second [res.json]. *)
Theorem non_200_becomes_500 (req : Request) (a : string)
  (cs : list FilterClauseType) (st : Z) (msg : option string)
  (subs : option (list SubmissionType)) :
  validRequest req a cs ->
  st <> 200 ->
  axiosGet (submissionsUrl (params_formId req)) a = Resolved st msg subs ->
  handler hostParse axiosGet req
  = {| finalRes :=
         {| statusCode := 500;
            sent := Some (500, ErrorBody "Internal Server Error") |};
       upstreamCalls := [(submissionsUrl (params_formId req), a)];
       outcome :=
         Throw (OtherError "Cannot set headers after they are sent to the client") |}.
Proof.
  intros V Hst Hup. rewrite (handler_valid_run req a cs V). unfold runM.
  rewrite try_statement_run, Hup.
  destruct (Z.eqb_spec st 200) as [?|_]; [contradiction|]. reflexivity.
Qed.

(** X19. When the upstream answers 200 but its [responses] field is not an
    array, the handler answers 400 with
    [{error: "Filters must be nested in an array."}] and ends normally;
    no filter runs. *)
Theorem upstream_without_array_rejected (req : Request) (a : string)
  (cs : list FilterClauseType) (msg : option string) :
  validRequest req a cs ->
  axiosGet (submissionsUrl (params_formId req)) a = Resolved 200 msg None ->
  handler hostParse axiosGet req
  = {| finalRes :=
         {| statusCode := 400;
            sent := Some (400,
              ErrorBody "Filters must be nested in an array.") |};
       upstreamCalls := [(submissionsUrl (params_formId req), a)];
       outcome := Ok tt |}.
Proof.
  intros V Hup. rewrite (handler_valid_run req a cs V). unfold runM.
  rewrite try_statement_run, Hup. reflexivity.
Qed.

(** X20. Soundness of the endpoint: for a valid request and an upstream
    answer of status 200 with an array, the handler answers 200 and ends
    normally, and every submission of the returned page is one of the
    upstream's submissions and satisfies every clause of the request,
    whatever the limit and the offset are; the page is never longer than
    the upstream's list. *)
Theorem returned_page_is_sound (req : Request) (a : string)
  (cs : list FilterClauseType) (msg : option string)
  (subs : list SubmissionType) :
  validRequest req a cs ->
  axiosGet (submissionsUrl (params_formId req)) a
  = Resolved 200 msg (Some subs) ->
  exists page,
    finalRes (handler hostParse axiosGet req)
    = {| statusCode := 200; sent := Some (200, PageBody page) |}
    /\ outcome (handler hostParse axiosGet req) = Ok tt
    /\ (forall s, In s (responses page) ->
                  In s subs /\ forall c, In c cs -> satisfies hostParse s c)
    /\ totalResponses page <= Z.of_nat (List.length subs).
Proof.
  intros V Hup. rewrite (handler_valid_run req a cs V). unfold runM.
  rewrite try_statement_run, Hup. cbn [Z.eqb Pos.eqb finalRes outcome].
  eexists. split; [reflexivity|]. split; [reflexivity|].
  set (kept := List.filter _ subs).
  destruct (paginateNumbers_segment kept
              (queryInt (query_limit req) (ofZ 150))
              (queryInt (query_offset req) (ofZ 0)))
    as (front & back & E).
  change (totalResponses (paginateNumbers kept ?l ?o))
    with (Z.of_nat (List.length (responses (paginateNumbers kept l o)))).
  split.
  - intros s Hs.
    assert (K : In s kept).
    { rewrite E. apply in_or_app. right. apply in_or_app. now left. }
    subst kept. rewrite filter_In, forallb_forall in K.
    destruct K as [K1 K2]. split; [exact K1|].
    intros c Hc. apply clausePasses_satisfies, K2, Hc.
  - pose proof (Subsequence_length _ _
                  (filter_Subsequence
                     (fun s => forallb (clausePasses hostParse s) cs) subs))
      as B.
    fold kept in B. rewrite E in B at 1. rewrite !length_app in B. lia.
Qed.

(** X21. Without [limit] and [offset] parameters the page is the first 150
    kept submissions, and the page count is the ceiling of their number
    over 150. *)
Theorem default_page_is_first_150 (req : Request) (a : string)
  (cs : list FilterClauseType) (msg : option string)
  (subs : list SubmissionType) :
  validRequest req a cs ->
  axiosGet (submissionsUrl (params_formId req)) a
  = Resolved 200 msg (Some subs) ->
  query_limit req = None -> query_offset req = None ->
  let kept :=
    List.filter (fun s => forallb (clausePasses hostParse s) cs) subs in
  exists page pc,
    sent (finalRes (handler hostParse axiosGet req))
    = Some (200, PageBody page)
    /\ responses page = firstn 150 kept
    /\ totalResponses page = Z.min 150 (Z.of_nat (List.length kept))
    /\ pageCount page = Some pc
    /\ isCeiling (Z.of_nat (List.length kept)) 150 pc.
Proof.
  intros V Hup Hl Ho kept. rewrite (handler_valid_run req a cs V).
  unfold runM. rewrite try_statement_run, Hup, Hl, Ho.
  cbn [Z.eqb Pos.eqb finalRes sent queryInt]. fold kept.
  rewrite (paginateNumbers_finite kept (ofZ 150) (ofZ 0) 150 0)
    by reflexivity.
  destruct (ceilDiv_spec (Z.of_nat (List.length kept)) 150 ltac:(lia))
    as (pc & Epc & C).
  exists (paginateData kept 150 0), pc.
  split; [reflexivity|].
  unfold paginateData. cbn [responses totalResponses pageCount].
  rewrite (slice_from_front kept 0 150) by lia. cbn [Z.to_nat skipn].
  split; [reflexivity|]. split; [|split; assumption].
  rewrite length_firstn. lia.
Qed.

(** X22. A page is only ever sent with status 200, and the limit that
    reaches [paginateData] is never zero and never NaN, because a zero or
    unreadable [limit] parameter is replaced by 150: every page that the
    handler sends carries a finite page count, a non-negative one when the
    limit is a positive integer and 0 when the limit was read as an
    infinity. *)
Theorem sent_page_count_is_finite (req : Request) (st : Z)
  (page : ReturnType) :
  sent (finalRes (handler hostParse axiosGet req))
  = Some (st, PageBody page) ->
  let limit := integralOf (queryInt (query_limit req) (ofZ 150)) in
  st = 200
  /\ limit <> Finite 0 /\ limit <> NotNumber
  /\ exists pc,
       pageCount page = Some pc
       /\ (forall l, limit = Finite l -> 0 < l -> 0 <= pc)
       /\ (limit = PlusInfinity \/ limit = MinusInfinity -> pc = 0).
Proof.
  intros S limit. subst limit.
  destruct (limit_integral (query_limit req)) as [Q0 Qn].
  set (limit := integralOf (queryInt (query_limit req) (ofZ 150))) in *.
  cut (st = 200
       /\ exists pc,
            pageCount page = Some pc
            /\ (forall l, limit = Finite l -> 0 < l -> 0 <= pc)
            /\ (limit = PlusInfinity \/ limit = MinusInfinity -> pc = 0)).
  { intros [A B]. repeat split; assumption. }
  destruct (request_cases req) as [M|(a & Ha & Hne & C)].
  { unfold handler in S. rewrite M in S. discriminate S. }
  assert (Hm : missing (headers_authorization req) = false)
    by (rewrite Ha; now apply missing_false).
  destruct C as [Hf|(Hf & C)].
  { unfold handler in S. rewrite Hm, Hf in S. discriminate S. }
  destruct C as [Hb|[Hb|(cs & V)]].
  - unfold handler in S. rewrite Hm in S.
    destruct (String.eqb_spec (params_formId req) "") as [?|_];
      [contradiction|]. rewrite Hb in S. discriminate S.
  - unfold handler in S. rewrite Hm in S.
    destruct (String.eqb_spec (params_formId req) "") as [?|_];
      [contradiction|]. rewrite Hb in S. discriminate S.
  - rewrite (handler_valid_run req a cs V) in S. unfold runM in S.
    rewrite try_statement_run in S.
    destruct (axiosGet _ _) as [st' msg [subs|]|[st' m|m]];
      try destruct (st' =? 200); try discriminate S.
    lazy beta iota zeta delta [finalRes sent] in S. injection S as <- <-.
    split; [reflexivity|].
    unfold paginateNumbers. lazy beta iota zeta delta [pageCount].
    match goal with
    | |- context [ceilDivOf ?n ?x] =>
        change (ceilDivOf n x) with (ceilDivOf n limit)
    end.
    clearbody limit.
    destruct limit as [l| | |]; cbn [ceilDivOf].
    + unfold ceilDiv. destruct (Z.eqb_spec l 0) as [->|Hl]; [now elim Q0|].
      eexists. split; [reflexivity|]. split.
      * intros l' E P. injection E as <-.
        set (N := Z.of_nat _).
        pose proof (Z.div_mod (- N) l Hl) as D.
        pose proof (Z.mod_pos_bound (- N) l P) as B.
        assert (0 <= N) by (subst N; lia). nia.
      * intros [E|E]; discriminate E.
    + exists 0. split; [reflexivity|]. split; [discriminate|reflexivity].
    + exists 0. split; [reflexivity|]. split; [discriminate|reflexivity].
    + now elim Qn.
Qed.

(** X23. The handler ends normally exactly when the request carries a
    credential and a form id and either its body is refused (not an array,
    or an empty one) or the upstream resolves with status 200.  On every
    other path (a missing credential or form id, an upstream rejection or
    another status) the handler's promise is rejected. *)
Theorem handler_fulfilled_iff (req : Request) :
  outcome (handler hostParse axiosGet req) = Ok tt
  <-> exists a,
        headers_authorization req = Some a /\ a <> ""
        /\ params_formId req <> ""
        /\ (body req = BodyOther \/ body req = BodyArray []
            \/ exists msg subs,
                 axiosGet (submissionsUrl (params_formId req)) a
                 = Resolved 200 msg subs).
Proof.
  destruct (request_cases req) as [M|(a & Ha & Hne & C)].
  - unfold handler. rewrite M. cbn. split; [discriminate|].
    intros (a & Ha & Hne & _). rewrite Ha in M.
    rewrite (missing_false a Hne) in M. discriminate M.
  - assert (Hm : missing (headers_authorization req) = false)
      by (rewrite Ha; now apply missing_false).
    destruct C as [Hf|(Hf & C)].
    + unfold handler. rewrite Hm, Hf. cbn. split; [discriminate|].
      intros (a' & _ & _ & Hf' & _). contradiction.
    + destruct C as [Hb|[Hb|(cs & V)]].
      * split; [intros _; exists a; tauto|]. intros _.
        unfold handler. rewrite Hm.
        destruct (String.eqb_spec (params_formId req) "") as [?|_];
          [contradiction|]. now rewrite Hb.
      * split; [intros _; exists a; tauto|]. intros _.
        unfold handler. rewrite Hm.
        destruct (String.eqb_spec (params_formId req) "") as [?|_];
          [contradiction|]. now rewrite Hb.
      * rewrite (handler_valid_run req a cs V). unfold runM.
        rewrite try_statement_run.
        destruct V as (_ & _ & _ & Hb & Hcs).
        destruct (axiosGet _ _) as [st msg subs|e] eqn:Hup.
        -- destruct (Z.eqb_spec st 200) as [->|Hst].
           ++ split.
              ** intros _. exists a. repeat split; try assumption.
                 right. right. rewrite Hup. now exists msg, subs.
              ** intros _. now destruct subs.
           ++ cbn [outcome]. split; [discriminate|].
              intros (a' & Ha' & _ & _ & [B|[B|(msg' & subs' & U)]]).
              ** congruence.
              ** rewrite Hb in B. injection B as ->. contradiction.
              ** assert (a' = a) by congruence. subst a'.
                 rewrite Hup in U. injection U as -> _ _. contradiction.
        -- destruct e as [st m|m]; cbn [outcome];
             (split; [discriminate|]);
             intros (a' & Ha' & _ & _ & [B|[B|(msg' & subs' & U)]]);
             try congruence;
             try (rewrite Hb in B; injection B as ->; contradiction).
Qed.

End HandlerProperties.

(** X24. Integer values in the safe range compare as the integers do: on
    a question that is not a date, with a stored integer [x] and a clause
    integer [y], [greater_than] passes exactly when [x > y], [less_than]
    exactly when [x < y] and [equals] exactly when [x = y]. *)
Theorem integer_answers_compare (hostParse : string -> number)
  (q : QuestionType) (id : string) (x y : Z) (r : Response) :
  q_type q <> "DatePicker" ->
  q_value q = VNum (ofZ x) ->
  Z.abs x < 2 ^ 53 -> Z.abs y < 2 ^ 53 ->
  evalClause hostParse q
    {| c_id := id; c_condition := "greater_than"; c_value := VNum (ofZ y) |} r
  = (Ok (CbBool (y <? x)), r)
  /\ evalClause hostParse q
       {| c_id := id; c_condition := "less_than"; c_value := VNum (ofZ y) |} r
     = (Ok (CbBool (x <? y)), r)
  /\ evalClause hostParse q
       {| c_id := id; c_condition := "equals"; c_value := VNum (ofZ y) |} r
     = (Ok (CbBool (x =? y)), r).
Proof.
  intros Ht Hv Bx By. rewrite !evalClause_pure.
  unfold switchCondition, coerce, isDatePicker. cbn.
  destruct (String.eqb_spec (q_type q) "DatePicker") as [?|_]; [contradiction|].
  rewrite Hv. cbn [Number_ strictEquals].
  rewrite ofZ_gt, ofZ_lt by assumption.
  unfold JsNum.strictEq, SFeqb. rewrite ofZ_compare by assumption.
  repeat split. rewrite Z.eqb_compare. reflexivity.
Qed.

(* ================================================================== *)
(** ** Runs of the further properties *)
(* ================================================================== *)

Lemma filter_ignores_clause_order_witness :
  let c1 := yesClause in
  let c2 := sampleClause "q1" "does_not_equal" (VStr "no") in
  Permutation [c1; c2] [c2; c1]
  /\ filteredSubmissions plainHost [subA; subB] [c1; c2] freshResponse
     = filteredSubmissions plainHost [subA; subB] [c2; c1] freshResponse.
Proof.
  intros c1 c2.
  assert (P : Permutation [c1; c2] [c2; c1]) by apply perm_swap.
  split; [exact P|].
  exact (filter_ignores_clause_order plainHost [subA; subB] _ _ freshResponse P).
Defined.

Lemma unknown_condition_keeps_nothing_witness :
  let c := sampleClause "q1" "contains" (VStr "yes") in
  In c [c] /\ ~ knownCondition (c_condition c)
  /\ filteredSubmissions plainHost [subA; subB] [c] freshResponse
     = (Ok [], freshResponse).
Proof.
  intro c.
  assert (H1 : In c [c]) by (left; reflexivity).
  assert (H2 : ~ knownCondition (c_condition c)).
  { intros [H|[H|[H|H]]]; discriminate H. }
  split; [exact H1|]. split; [exact H2|].
  exact (unknown_condition_keeps_nothing plainHost [subA; subB] [c] c
           freshResponse H1 H2).
Defined.

Lemma first_answer_decides_witness :
  let q1 := sampleQuestion "q1" "ShortAnswer" (VStr "yes") in
  let q2 := sampleQuestion "q1" "ShortAnswer" (VStr "no") in
  let q0 := sampleQuestion "q0" "ShortAnswer" (VStr "no") in
  let s := sampleSubmission "D" [q0; q1; q2] in
  questions s = ([q0] ++ q1 :: [q2])%list
  /\ (forall p, In p [q0] -> q_id p <> c_id yesClause)
  /\ q_id q1 = c_id yesClause
  /\ clauseCallback plainHost s yesClause freshResponse
     = evalClause plainHost q1 yesClause freshResponse.
Proof.
  intros q1 q2 q0 s.
  assert (H : forall p, In p [q0] -> q_id p <> c_id yesClause).
  { intros p [<-|[]]. discriminate. }
  split; [reflexivity|]. split; [exact H|]. split; [reflexivity|].
  exact (first_answer_decides plainHost s yesClause [q0] [q2] q1 freshResponse
           eq_refl H eq_refl).
Defined.

Lemma pages_tile_the_list_witness :
  0 < 2
  /\ pageCount (paginateData [subA; subB; subC] 2 0) = Some 2
  /\ (Z.to_nat 2 <= 5)%nat
  /\ walkPages [subA; subB; subC] 2 (Z.to_nat 2) = [subA; subB; subC]
  /\ walkPages [subA; subB; subC] 2 5 = [subA; subB; subC].
Proof.
  assert (H1 : 0 < 2) by lia.
  assert (H2 : (Z.to_nat 2 <= 5)%nat) by (cbn; lia).
  destruct (pages_tile_the_list [subA; subB; subC] 2 2 5 H1 eq_refl H2)
    as (_ & A & B).
  split; [exact H1|]. split; [reflexivity|]. split; [exact H2|].
  split; [exact A|exact B].
Defined.

Lemma page_empty_iff_past_end_witness :
  0 <= 3 /\ 0 < 2
  /\ (responses (paginateData [subA; subB; subC] 2 3) = []
      <-> Z.of_nat (List.length [subA; subB; subC]) <= 3).
Proof.
  assert (H1 : 0 <= 3) by lia. assert (H2 : 0 < 2) by lia.
  split; [exact H1|]. split; [exact H2|].
  exact (page_empty_iff_past_end [subA; subB; subC] 2 3 H1 H2).
Defined.

Lemma negative_limit_pages_witness :
  -1 < 0 /\ 0 <= 0
  /\ pageCount (paginateData [subA; subB; subC] (-1) 0) = Some (-3)
  /\ totalResponses (paginateData [subA; subB; subC] (-1) 0) = 2.
Proof.
  assert (H1 : -1 < 0) by lia. assert (H2 : 0 <= 0) by lia.
  destruct (negative_limit_pages [subA; subB; subC] (-1) 0 H1 H2)
    as (_ & _ & T).
  split; [exact H1|]. split; [exact H2|]. split; [reflexivity|].
  apply T. lia.
Defined.

Lemma sample_valid (limit offset : option string) :
  validRequest
    (sampleRequest (Some "Bearer key") (BodyArray [yesClause]) limit offset)
    "Bearer key" [yesClause].
Proof. repeat split; discriminate. Defined.

Lemma non_array_body_rejected_witness :
  let req := sampleRequest (Some "Bearer key") BodyOther None None in
  headers_authorization req = Some "Bearer key" /\ "Bearer key" <> ""
  /\ params_formId req <> "" /\ body req = BodyOther
  /\ sent (finalRes (handler plainHost (upstreamWith [subA]) req))
     = Some (400, ErrorBody "Invalid filter clauses - must be an array").
Proof.
  intro req.
  assert (H1 : "Bearer key" <> "") by discriminate.
  assert (H2 : params_formId req <> "") by discriminate.
  split; [reflexivity|]. split; [exact H1|]. split; [exact H2|].
  split; [reflexivity|].
  rewrite (non_array_body_rejected plainHost (upstreamWith [subA]) req
             "Bearer key" eq_refl H1 H2 eq_refl).
  reflexivity.
Defined.

Lemma missing_form_id_throws_witness :
  let req := {| params_formId := ""; body := BodyArray [yesClause];
                headers_authorization := Some "Bearer key";
                query_limit := None; query_offset := None |} in
  headers_authorization req = Some "Bearer key" /\ "Bearer key" <> ""
  /\ params_formId req = ""
  /\ handler plainHost (upstreamWith [subA]) req
     = {| finalRes := {| statusCode := 400; sent := None |};
          upstreamCalls := [];
          outcome := Throw (OtherError "Please provide a valid form ID.") |}.
Proof.
  intro req. assert (H1 : "Bearer key" <> "") by discriminate.
  split; [reflexivity|]. split; [exact H1|]. split; [reflexivity|].
  exact (missing_form_id_throws plainHost (upstreamWith [subA]) req
           "Bearer key" eq_refl H1 eq_refl).
Defined.

Lemma upstream_called_iff_valid_witness :
  let req := sampleRequest (Some "Bearer key") (BodyArray [yesClause])
               None None in
  validRequest req "Bearer key" [yesClause]
  /\ upstreamCalls (handler plainHost (upstreamWith [subA]) req)
     = [("https://api.fillout.com/v1/api/forms/cLZojxk94ous/submissions",
         "Bearer key")].
Proof.
  intro req. pose proof (sample_valid None None) as V.
  split; [exact V|].
  destruct (upstream_called_iff_valid plainHost (upstreamWith [subA]) req)
    as [H _].
  exact (H "Bearer key" [yesClause] V).
Defined.

Lemma axios_error_forwarded_witness :
  let req := sampleRequest (Some "Bearer key") (BodyArray [yesClause])
               None None in
  let up := fun _ _ : string =>
              Rejected (AxiosError (Some 404)
                          "Request failed with status code 404") in
  validRequest req "Bearer key" [yesClause]
  /\ sent (finalRes (handler plainHost up req))
     = Some (404, ErrorBody "Request failed with status code 404")
  /\ outcome (handler plainHost up req)
     = Throw (OtherError "Cannot set headers after they are sent to the client").
Proof.
  intros req up. pose proof (sample_valid None None) as V.
  split; [exact V|].
  rewrite (axios_error_forwarded plainHost up req "Bearer key" [yesClause]
             (Some 404) _ V eq_refl).
  split; reflexivity.
Defined.

Lemma non_200_becomes_500_witness :
  let req := sampleRequest (Some "Bearer key") (BodyArray [yesClause])
               None None in
  let up := fun _ _ : string =>
              Resolved 204 (Some "No Content") None in
  validRequest req "Bearer key" [yesClause] /\ 204 <> 200
  /\ sent (finalRes (handler plainHost up req))
     = Some (500, ErrorBody "Internal Server Error").
Proof.
  intros req up. pose proof (sample_valid None None) as V.
  assert (H : 204 <> 200) by discriminate.
  split; [exact V|]. split; [exact H|].
  rewrite (non_200_becomes_500 plainHost up req "Bearer key" [yesClause]
             204 _ _ V H eq_refl).
  reflexivity.
Defined.

Lemma upstream_without_array_rejected_witness :
  let req := sampleRequest (Some "Bearer key") (BodyArray [yesClause])
               None None in
  let up := fun _ _ : string => Resolved 200 None None in
  validRequest req "Bearer key" [yesClause]
  /\ sent (finalRes (handler plainHost up req))
     = Some (400, ErrorBody "Filters must be nested in an array.").
Proof.
  intros req up. pose proof (sample_valid None None) as V.
  split; [exact V|].
  rewrite (upstream_without_array_rejected plainHost up req "Bearer key"
             [yesClause] None V eq_refl).
  reflexivity.
Defined.

Lemma returned_page_is_sound_witness :
  let req := sampleRequest (Some "Bearer key") (BodyArray [yesClause])
               (Some "2") (Some "-1") in
  validRequest req "Bearer key" [yesClause]
  /\ exists page,
       finalRes (handler plainHost (upstreamWith [subA; subB; subC]) req)
       = {| statusCode := 200; sent := Some (200, PageBody page) |}
       /\ totalResponses page <= 3.
Proof.
  intro req. pose proof (sample_valid (Some "2") (Some "-1")) as V.
  split; [exact V|].
  destruct (returned_page_is_sound plainHost (upstreamWith [subA; subB; subC])
              req "Bearer key" [yesClause] None [subA; subB; subC] V eq_refl)
    as (page & F & _ & _ & T).
  exists page. split; [exact F|exact T].
Defined.

Lemma default_page_is_first_150_witness :
  let req := sampleRequest (Some "Bearer key") (BodyArray [yesClause])
               None None in
  validRequest req "Bearer key" [yesClause]
  /\ query_limit req = None /\ query_offset req = None
  /\ exists page pc,
       sent (finalRes (handler plainHost (upstreamWith [subA; subB; subC]) req))
       = Some (200, PageBody page)
       /\ responses page = [subA; subB; subC]
       /\ pageCount page = Some pc.
Proof.
  intro req. pose proof (sample_valid None None) as V.
  split; [exact V|]. split; [reflexivity|]. split; [reflexivity|].
  destruct (default_page_is_first_150 plainHost
              (upstreamWith [subA; subB; subC]) req "Bearer key" [yesClause]
              None [subA; subB; subC] V eq_refl eq_refl eq_refl)
    as (page & pc & S & R & _ & P & _).
  exists page, pc. split; [exact S|]. split; [exact R|exact P].
Defined.

Lemma sent_page_count_is_finite_witness :
  let req := sampleRequest (Some "Bearer key") (BodyArray [yesClause])
               (Some "0") None in
  let page := paginateData [subA; subB; subC] 150 0 in
  sent (finalRes (handler plainHost (upstreamWith [subA; subB; subC]) req))
  = Some (200, PageBody page)
  /\ integralOf (queryInt (query_limit req) (ofZ 150)) <> Finite 0
  /\ exists pc, pageCount page = Some pc.
Proof.
  intros req page.
  assert (S : sent (finalRes (handler plainHost
                                (upstreamWith [subA; subB; subC]) req))
              = Some (200, PageBody page)) by reflexivity.
  destruct (sent_page_count_is_finite plainHost
              (upstreamWith [subA; subB; subC]) req 200 page S)
    as (_ & Q & _ & pc & P & _).
  split; [exact S|]. split; [exact Q|]. now exists pc.
Defined.

Lemma integer_answers_compare_witness :
  let q := sampleQuestion "age" "NumberInput" (VNum (ofZ 42)) in
  q_type q <> "DatePicker" /\ q_value q = VNum (ofZ 42)
  /\ Z.abs 42 < 2 ^ 53 /\ Z.abs 40 < 2 ^ 53
  /\ evalClause plainHost q (sampleClause "age" "greater_than" (VNum (ofZ 40)))
       freshResponse
     = (Ok (CbBool true), freshResponse).
Proof.
  intro q.
  assert (H1 : q_type q <> "DatePicker") by discriminate.
  assert (H2 : Z.abs 42 < 2 ^ 53) by (cbn; lia).
  assert (H3 : Z.abs 40 < 2 ^ 53) by (cbn; lia).
  destruct (integer_answers_compare plainHost q "age" 42 40 freshResponse
              H1 eq_refl H2 H3) as (G & _ & _).
  split; [exact H1|]. split; [reflexivity|]. split; [exact H2|].
  split; [exact H3|]. exact G.
Defined.
